(** * Price-predictor backend: feature preparation, market comparison,
      artifact loading and the [/predict] handlers.

    Shallow embedding of
      - [price-predictor-backend/utils.py]  (module [Utils]),
      - [price-predictor-backend/app.py]    (module [BackendApp]),
      - [app.py]                            (module [App]),
    followed by the properties of the specification.

    Conventions of the embedding.
      - A Python [float] is a [pyfloat]: an exact rational or one of the
        three special values.  Binary rounding and signed zeros are not
        represented; every arithmetic result is exact.  Module
        [Binary64] holds the column mean as binary64 arithmetic computes
        it, for the one property on which the rounding decides.
      - A raising computation returns [Raise e]; [try/except Exception]
        is [try_except].
      - Strings are ASCII; [str.lower] lowers the letters A-Z. *)

From Stdlib Require Import QArith Qround Qabs Lqa ZArith Lia.
From Stdlib Require Import Ascii String.
From Stdlib Require PrimFloat FloatOps SpecFloat.
From stdpp Require Import gmap strings list fin_maps pretty.

Open Scope Z_scope.

(* ===================================================================== *)
(** ** Python runtime values                                             *)
(* ===================================================================== *)

Module Py.

(** Exceptions that the modelled code can meet. *)
Inductive exn :=
| KeyError | TypeError | ValueError | AttributeError
| ZeroDivisionError | HTTPError | ConnectionError.

Inductive result (A : Type) :=
| Ok (a : A)
| Raise (e : exn).
Arguments Ok {A} a.
Arguments Raise {A} e.

Definition bind {A B} (m : result A) (k : A -> result B) : result B :=
  match m with
  | Ok a => k a
  | Raise e => Raise e
  end.

Notation "x <- m ;; k" := (bind m (fun x => k))
  (at level 100, m at next level, right associativity).

(** [try: body except Exception: handler] *)
Definition try_except {A} (body : result A) (handler : result A) : result A :=
  match body with
  | Ok a => Ok a
  | Raise _ => handler
  end.

Definition is_ok {A} (m : result A) : bool :=
  match m with Ok _ => true | Raise _ => false end.

(** *** Floats *)

Inductive pyfloat :=
| Fin (q : Q)
| PInf
| NInf
| NaN.

Definition fin_of_Z (z : Z) : pyfloat := Fin (inject_Z z).

Definition is_nan (x : pyfloat) : bool :=
  match x with NaN => true | _ => false end.

Definition fneg (x : pyfloat) : pyfloat :=
  match x with
  | Fin q => Fin (Qred (- q))
  | PInf => NInf
  | NInf => PInf
  | NaN => NaN
  end.

Definition fadd (x y : pyfloat) : pyfloat :=
  match x, y with
  | NaN, _ | _, NaN => NaN
  | Fin a, Fin b => Fin (Qred (a + b))
  | PInf, NInf | NInf, PInf => NaN
  | PInf, _ | _, PInf => PInf
  | NInf, _ | _, NInf => NInf
  end.

Definition fsub (x y : pyfloat) : pyfloat :=
  match x, y with
  | NaN, _ | _, NaN => NaN
  | Fin a, Fin b => Fin (Qred (a - b))
  | PInf, PInf | NInf, NInf => NaN
  | PInf, _ | _, NInf => PInf
  | NInf, _ | _, PInf => NInf
  end.

Definition fabs (x : pyfloat) : pyfloat :=
  match x with
  | Fin q => Fin (Qabs q)
  | PInf | NInf => PInf
  | NaN => NaN
  end.

(** Sign of a float: [Some 1], [Some 0], [Some (-1)], or [None] for NaN. *)
Definition fsign (x : pyfloat) : option Z :=
  match x with
  | Fin q => Some (Z.sgn (Qnum q))
  | PInf => Some 1
  | NInf => Some (-1)
  | NaN => None
  end.

Definition inf_of_sign (s : Z) : pyfloat :=
  if Z.eqb s 0 then NaN else if Z.ltb 0 s then PInf else NInf.

Definition fmul (x y : pyfloat) : pyfloat :=
  match x, y with
  | Fin a, Fin b => Fin (Qred (a * b))
  | _, _ =>
      match fsign x, fsign y with
      | Some sx, Some sy => inf_of_sign (sx * sy)
      | _, _ => NaN
      end
  end.

Definition is_zero (x : pyfloat) : bool :=
  match x with Fin q => Qeq_bool q 0 | _ => false end.

(** Division without the zero check (the divisor is known non-zero). *)
Definition fdiv_nz (x y : pyfloat) : pyfloat :=
  match x, y with
  | NaN, _ | _, NaN => NaN
  | Fin a, Fin b => Fin (Qred (a / b))
  | Fin _, _ => Fin 0
  | _, Fin b => match fsign x with
                | Some sx => inf_of_sign (sx * Z.sgn (Qnum b))
                | None => NaN
                end
  | _, _ => NaN
  end.

(** Python's [x / y] on floats: a zero divisor raises. *)
Definition truediv (x y : pyfloat) : result pyfloat :=
  if is_zero y then Raise ZeroDivisionError else Ok (fdiv_nz x y).

(** [x < y], [x <= y], [x > y]: every comparison with NaN is false. *)
Definition flt (x y : pyfloat) : bool :=
  match x, y with
  | NaN, _ | _, NaN => false
  | Fin a, Fin b => negb (Qle_bool b a)
  | NInf, NInf | PInf, _ | _, NInf => false
  | NInf, _ | _, PInf => true
  end.

Definition fle (x y : pyfloat) : bool :=
  match x, y with
  | NaN, _ | _, NaN => false
  | Fin a, Fin b => Qle_bool a b
  | NInf, _ | _, PInf => true
  | PInf, _ | _, NInf => false
  end.

Definition fgt (x y : pyfloat) : bool := flt y x.

(** Truth value of a float: [0.0] is falsy, everything else (NaN
    included) is truthy. *)
Definition truthy (x : pyfloat) : bool := negb (is_zero x).

(** Round half to even, to the nearest integer. *)
Definition round_half_even (q : Q) : Z :=
  let f := Qfloor q in
  let r := (q - inject_Z f)%Q in
  if Qle_bool r (1 # 2)
  then if Qeq_bool r (1 # 2)
       then (if Z.even f then f else f + 1)
       else f
  else f + 1.

(** [round(x, ndigits)] on a float, [ndigits >= 0]. *)
Definition round_nd (x : pyfloat) (ndigits : nat) : pyfloat :=
  match x with
  | Fin q =>
      let scale := inject_Z (10 ^ Z.of_nat ndigits) in
      Fin (Qred (inject_Z (round_half_even (q * scale)) / scale))
  | _ => x
  end.

(** *** Numbers and scalar values *)

Inductive number :=
| Int (z : Z)
| Float (x : pyfloat).

(** JSON scalars as Python objects. *)
Inductive pyval :=
| VNone
| VBool (b : bool)
| VNum (n : number)
| VStr (s : string).

(** A decoded JSON document. *)
#[local] Unset Elimination Schemes.
Inductive json :=
| JNull
| JBool (b : bool)
| JNumber (n : number)
| JString (s : string)
| JArray (items : list json)
| JObject (members : gmap string json).
#[local] Set Elimination Schemes.

(** The two conversions between strings and floats that Python's
    runtime provides; they are an interface of the embedding. *)
Class FloatText := {
  float_of_str : string -> option pyfloat;  (* [float(s)], [None]: ValueError *)
  str_of_float : pyfloat -> string          (* [str(x)] of a float *)
}.

Definition float_of_number (n : number) : pyfloat :=
  match n with
  | Int z => fin_of_Z z
  | Float x => x
  end.

(** [float(v)].  An int is read at its exact value: the OverflowError of
    an int beyond the binary64 range (about 1.8e308) is not
    represented. *)
Definition float `{FloatText} (v : pyval) : result pyfloat :=
  match v with
  | VNone => Raise TypeError
  | VBool b => Ok (fin_of_Z (if b then 1 else 0))
  | VNum n => Ok (float_of_number n)
  | VStr s => match float_of_str s with
              | Some x => Ok x
              | None => Raise ValueError
              end
  end.

(** [str(v)] *)
Definition str `{FloatText} (v : pyval) : string :=
  match v with
  | VNone => "None"
  | VBool b => if b then "True" else "False"
  | VNum (Int z) => pretty z
  | VNum (Float x) => str_of_float x
  | VStr s => s
  end.

(** [min(a, b)] and [max(a, b)] keep [a] unless [b] compares strictly
    below (above) it. *)
Definition fmin (a b : pyfloat) : pyfloat := if flt b a then b else a.
Definition fmax (a b : pyfloat) : pyfloat := if fgt b a then b else a.

(** The numeric reading of a value in an ordering comparison with a
    float; [None] and strings are unorderable against a float. *)
Definition as_float (v : pyval) : result pyfloat :=
  match v with
  | VBool b => Ok (fin_of_Z (if b then 1 else 0))
  | VNum n => Ok (float_of_number n)
  | _ => Raise TypeError
  end.

Definition lt (a b : pyval) : result bool :=
  x <- as_float a;; y <- as_float b;; Ok (flt x y).

Definition min2 (a b : pyval) : result pyval :=
  c <- lt b a;; Ok (if c then b else a).
Definition max2 (a b : pyval) : result pyval :=
  c <- lt a b;; Ok (if c then b else a).

(** [round(v, ndigits)]: an int is returned unchanged. *)
Definition round (v : pyval) (ndigits : nat) : result pyval :=
  match v with
  | VBool b => Ok (VNum (Int (if b then 1 else 0)))
  | VNum (Int z) => Ok (VNum (Int z))
  | VNum (Float x) => Ok (VNum (Float (round_nd x ndigits)))
  | _ => Raise TypeError
  end.

(** [d[k]] *)
Definition dict_getitem {V} (d : gmap string V) (k : string) : result V :=
  match d !! k with
  | Some v => Ok v
  | None => Raise KeyError
  end.

(** *** Strings *)

Definition lower_ascii (c : Ascii.ascii) : Ascii.ascii :=
  let n := Ascii.nat_of_ascii c in
  if (Nat.leb 65 n && Nat.leb n 90)%bool then Ascii.ascii_of_nat (n + 32) else c.

Fixpoint lower (s : string) : string :=
  match s with
  | EmptyString => EmptyString
  | String c s' => String (lower_ascii c) (lower s')
  end.

Definition startswith (s pre : string) : bool := String.prefix pre s.

Definition endswith (s suf : string) : bool :=
  let n := String.length s in
  let k := String.length suf in
  (Nat.leb k n && String.eqb (String.substring (n - k) k s) suf)%bool.

(** [s[:-k]] for [k > 0] *)
Definition drop_last (k : nat) (s : string) : string :=
  String.substring 0 (String.length s - k) s.

(** [s.replace(old, new)], every occurrence from the left; [old] is
    non-empty at each call site. *)
Fixpoint replace_fuel (fuel : nat) (old new s : string) : string :=
  match fuel with
  | O => s
  | S fuel' =>
      match s with
      | EmptyString => EmptyString
      | String c s' =>
          if String.prefix old s
          then new +:+ replace_fuel fuel'
                         old new
                         (String.substring (String.length old)
                            (String.length s - String.length old) s)
          else String c (replace_fuel fuel' old new s')
      end
  end.

Definition replace (s old new : string) : string :=
  replace_fuel (String.length s) old new s.

(** [sub in s] on strings *)
Fixpoint is_infix (sub s : string) : bool :=
  (String.prefix sub s
   || match s with
      | EmptyString => false
      | String _ s' => is_infix sub s'
      end)%bool.

(** [xs.index(v)], guarded by [v in xs] at its call site. *)
Fixpoint index (xs : list string) (v : string) : option nat :=
  match xs with
  | [] => None
  | x :: xs' => if String.eqb x v then Some 0%nat
                else option_map S (index xs' v)
  end.

(** [v in xs] *)
Definition contains (xs : list string) (v : string) : bool :=
  existsb (String.eqb v) xs.

End Py.


(* ===================================================================== *)
(** ** The part of pandas that [calculate_market_average] uses            *)
(* ===================================================================== *)

Module Pandas.
Import Py.

(** A column read from CSV is numeric (int64/float64/bool, missing
    cells are NaN) or of dtype object (strings, missing cells NaN).
    The dtype belongs to the column and survives row selection. *)
Inductive dtype := Numeric | Object.

Inductive cell :=
| CNum (x : pyfloat)
| CStr (s : string).

Record DataFrame := {
  columns : list (string * dtype);
  rows : list (gmap string cell)
}.

Inductive Series :=
| NumS (xs : list pyfloat)
| ObjS (xs : list (option string)).

Fixpoint dtype_of (cols : list (string * dtype)) (name : string) : option dtype :=
  match cols with
  | [] => None
  | (c, t) :: cols' => if String.eqb c name then Some t else dtype_of cols' name
  end.

(** [name in df.columns] *)
Definition has_column (df : DataFrame) (name : string) : bool :=
  match dtype_of (columns df) name with Some _ => true | None => false end.

Definition num_cell (name : string) (r : gmap string cell) : pyfloat :=
  match r !! name with
  | Some (CNum x) => x
  | _ => NaN
  end.

Definition obj_cell (name : string) (r : gmap string cell) : option string :=
  match r !! name with
  | Some (CStr s) => Some s
  | _ => None
  end.

(** [df[name]] *)
Definition getitem (df : DataFrame) (name : string) : result Series :=
  match dtype_of (columns df) name with
  | None => Raise KeyError
  | Some Numeric => Ok (NumS (map (num_cell name) (rows df)))
  | Some Object => Ok (ObjS (map (obj_cell name) (rows df)))
  end.

(** [len(df)] *)
Definition len (df : DataFrame) : nat := length (rows df).

(** [df.empty]: no rows or no columns *)
Definition empty (df : DataFrame) : bool :=
  match rows df, columns df with
  | [], _ | _, [] => true
  | _, _ => false
  end.

(** Rows kept by a boolean mask. *)
Fixpoint select_rows {A} (mask : list bool) (rs : list A) : list A :=
  match mask, rs with
  | b :: mask', r :: rs' =>
      if b then r :: select_rows mask' rs' else select_rows mask' rs'
  | _, _ => []
  end.

(** [df[mask]] *)
Definition select (mask : list bool) (df : DataFrame) : DataFrame :=
  {| columns := columns df; rows := select_rows mask (rows df) |}.

(** [mask.any()] *)
Definition any (mask : list bool) : bool := existsb id mask.

Definition holds_string (xs : list (option string)) : bool :=
  existsb (fun o => match o with Some _ => true | None => false end) xs.

(** [s.str.lower() == target]: the [.str] accessor exists on object
    columns only; a missing cell compares unequal. *)
Definition str_lower_eq (s : Series) (target : string) : result (list bool) :=
  match s with
  | NumS _ => Raise AttributeError
  | ObjS xs =>
      Ok (map (fun o => match o with
                        | Some x => String.eqb (lower x) target
                        | None => false
                        end) xs)
  end.

(** [abs(s - x) <= tol]: subtracting a float from a string raises. *)
Definition abs_diff_le (s : Series) (x tol : pyfloat) : result (list bool) :=
  match s with
  | NumS xs => Ok (map (fun v => fle (fabs (fsub v x)) tol) xs)
  | ObjS xs =>
      if holds_string xs then Raise TypeError
      else Ok (map (fun _ => false) xs)
  end.

Definition fsum (xs : list pyfloat) : pyfloat := foldl fadd (Fin 0) xs.

(** Mean of the cells that are not NaN; NaN when there is none.  The
    sum and the quotient are exact here; what binary64 makes of them is
    [Binary64.mean64]. *)
Definition nanmean (xs : list pyfloat) : pyfloat :=
  match filter (fun x => is_nan x = false) xs with
  | [] => NaN
  | v :: vs => fdiv_nz (fsum (v :: vs)) (fin_of_Z (Z.of_nat (length (v :: vs))))
  end.

(** [s.mean()] *)
Definition mean (s : Series) : result pyfloat :=
  match s with
  | NumS xs => Ok (nanmean xs)
  | ObjS xs => if holds_string xs then Raise TypeError else Ok NaN
  end.

(** The other reductions of a column, which the statistics routes use
    and which are taken as given: [float(s.min())], [float(s.max())],
    [float(s.median())], [float(s.std())] and
    [s.value_counts().head(5).to_dict()]. *)
Class SeriesStats := {
  series_min : Series -> result pyfloat;
  series_max : Series -> result pyfloat;
  series_median : Series -> result pyfloat;
  series_std : Series -> result pyfloat;
  top_counts : Series -> list (string * nat)
}.

End Pandas.

(* ===================================================================== *)
(** ** The column mean in binary64                                       *)
(* ===================================================================== *)

Module Binary64.
Import PrimFloat.








End Binary64.

Import Py.

(* ===================================================================== *)
(** ** price-predictor-backend/utils.py                                  *)
(* ===================================================================== *)

Module Utils.
Import Pandas.

(** A schema is the JSON object of [schemas/<category>.json]; a field is
    [None] when the key is missing, which is when [schema.get(key,
    default)] takes its default. *)
Record Schema := {
  feature_columns_field : option (list string);
  categorical_columns_field : option (list string);
  encoders_field : option (gmap string (list string));
  model_info_field : option (gmap string pyval)
}.

(** [schema.get("feature_columns", [])] and its two siblings *)
Definition feature_columns (schema : Schema) : list string :=
  default [] (feature_columns_field schema).
Definition categorical_columns (schema : Schema) : list string :=
  default [] (categorical_columns_field schema).
Definition encoders (schema : Schema) : gmap string (list string) :=
  default ∅ (encoders_field schema).

(** The empty dict [{}] read as a schema. *)
Definition empty_schema : Schema :=
  {| feature_columns_field := None; categorical_columns_field := None;
     encoders_field := None; model_info_field := None |}.

(** *** CONFIG, caches *)

(** What [requests.get] hands back. *)
Record Response := {
  status_code : nat;
  content_type : option string;   (* the Content-Type header, if any *)
  content : string                (* [.content] / [.text] *)
}.

(** [resp.raise_for_status()] *)
Definition raise_for_status (resp : Response) : result unit :=
  if (Nat.leb 400 (status_code resp) && Nat.ltb (status_code resp) 600)%bool
  then Raise HTTPError else Ok tt.

(** The decoders applied to downloaded bodies. *)
Class Decoders (Model : Type) := {
  joblib_load : string -> result Model;       (* [joblib.load(BytesIO(b))] *)
  json_listing : string -> result json;       (* [resp.json()] of the listing *)
  json_schema : string -> result Schema;      (* [s.json()] of a schema *)
  read_csv : string -> result Pandas.DataFrame   (* [pd.read_csv(StringIO(t))] *)
}.

(** The module-level caches, and the URLs requested so far (oldest
    first).  The [print] calls are not represented. *)
Record Process (Model : Type) := {
  _cached_models : gmap string Model;
  _cached_schemas : gmap string Schema;
  _cached_data : gmap string Pandas.DataFrame;
  _cached_categories : option (list string);
  requested : list string
}.
Arguments _cached_models {Model} _.
Arguments _cached_schemas {Model} _.
Arguments _cached_data {Model} _.
Arguments _cached_categories {Model} _.
Arguments requested {Model} _.

(** The state of a freshly imported module. *)
Definition fresh (Model : Type) : Process Model :=
  {| _cached_models := ∅; _cached_schemas := ∅; _cached_data := ∅;
     _cached_categories := None; requested := [] |}.

Definition default_categories : list string := ["phones"; "laptops"; "furniture"].

(** Truth value of a dict. *)
Definition nonempty {V} (d : gmap string V) : bool := negb (bool_decide (d = ∅)).

(** [[f["name"].replace(".pkl", "") for f in files
      if isinstance(f, dict) and f.get("name", "").endswith(".pkl")]]
    over the items of a JSON array. *)
Fixpoint pkl_names (items : list json) : result (list string) :=
  match items with
  | [] => Ok []
  | JObject f :: items' =>
      match default (JString EmptyString) (f !! "name") with
      | JString name =>
          rest <- pkl_names items';;
          Ok (if endswith name ".pkl"
              then replace name ".pkl" EmptyString :: rest
              else rest)
      | _ => Raise AttributeError     (* no [.endswith] on a non-string *)
      end
  | _ :: items' => pkl_names items'
  end.

(** [isinstance(files, dict)
     and str(files.get("message", "")).lower().startswith("api rate limit")];
    the [str] of a JSON value that is not itself a string never starts
    with these letters. *)
Definition rate_limited (files : json) : bool :=
  match files with
  | JObject o =>
      match o !! "message" with
      | Some (JString m) => startswith (lower m) "api rate limit"
      | _ => false
      end
  | _ => false
  end.

(** The category list that the [try] block of
    [get_categories_from_github] computes from the decoded listing. *)
Definition categories_of_listing (files : json) : result (list string) :=
  if rate_limited files then Ok default_categories
  else
    names <- match files with
             | JArray items => pkl_names items
             | JObject _ | JString _ => Ok []   (* iterates keys / characters *)
             | _ => Raise TypeError             (* not iterable *)
             end;;
    Ok (match names with [] => default_categories | _ => names end).

Section Loader.
Context {Model : Type} `{Decoders Model}.
(** [BASE_URL], read from the environment at import. *)
Variable BASE_URL : string.
(** The remote host: the answer to the [n]-th request of the
    process, by URL. *)
Variable network : nat -> string -> result Response.

Definition MODELS_URL : string := BASE_URL +:+ "/models/".

(** [requests.get(url, timeout=...)] *)
Definition requests_get (url : string) (p : Process Model)
    : result Response * Process Model :=
  (network (length (requested p)) url,
   {| _cached_models := _cached_models p;
      _cached_schemas := _cached_schemas p;
      _cached_data := _cached_data p;
      _cached_categories := _cached_categories p;
      requested := requested p ++ [url] |}).

Definition set_categories (cats : list string) (p : Process Model)
    : Process Model :=
  {| _cached_models := _cached_models p;
     _cached_schemas := _cached_schemas p;
     _cached_data := _cached_data p;
     _cached_categories := Some cats;
     requested := requested p |}.

(** *** CATEGORY DISCOVERY *)

Definition get_categories_from_github (p : Process Model)
    : list string * Process Model :=
  match _cached_categories p with
  | Some (c :: cs) => (c :: cs, p)
  | _ =>
      let api_url :=
        replace
          (replace MODELS_URL "https://raw.githubusercontent.com/"
                              "https://api.github.com/repos/")
          "/main" "/contents/models" in
      let '(got, p1) := requests_get api_url p in
      let cats :=
        match (resp <- got;;
               _ <- raise_for_status resp;;
               files <- json_listing (content resp);;
               categories_of_listing files) with
        | Ok cats => cats
        | Raise _ => default_categories     (* [except Exception] *)
        end in
      (cats, set_categories cats p1)
  end.

(** *** LOAD ARTIFACTS *)

Definition store_model (category : string) (m : Model) (p : Process Model) :=
  {| _cached_models := <[category := m]> (_cached_models p);
     _cached_schemas := _cached_schemas p;
     _cached_data := _cached_data p;
     _cached_categories := _cached_categories p;
     requested := requested p |}.

Definition store_schema (category : string) (s : Schema) (p : Process Model) :=
  {| _cached_models := _cached_models p;
     _cached_schemas := <[category := s]> (_cached_schemas p);
     _cached_data := _cached_data p;
     _cached_categories := _cached_categories p;
     requested := requested p |}.

Definition store_data (category : string) (d : Pandas.DataFrame) (p : Process Model) :=
  {| _cached_models := _cached_models p;
     _cached_schemas := _cached_schemas p;
     _cached_data := <[category := d]> (_cached_data p);
     _cached_categories := _cached_categories p;
     requested := requested p |}.

(** The three [try] blocks of one loop iteration; a failure leaves
    the corresponding cache as it was. *)
Definition load_model (category : string) (p : Process Model) : Process Model :=
  let '(got, p1) := requests_get (BASE_URL +:+ "/models/" +:+ category +:+ ".pkl") p in
  match (m <- got;; _ <- raise_for_status m;; joblib_load (content m)) with
  | Ok model => store_model category model p1
  | Raise _ => p1
  end.

Definition load_schema (category : string) (p : Process Model) : Process Model :=
  let '(got, p1) := requests_get (BASE_URL +:+ "/schemas/" +:+ category +:+ ".json") p in
  match (s <- got;;
         _ <- raise_for_status s;;
         if negb (is_infix "json" (default EmptyString (content_type s)))
         then Raise ValueError
         else json_schema (content s)) with
  | Ok schema => store_schema category schema p1
  | Raise _ => p1
  end.

Definition load_data (category : string) (p : Process Model) : Process Model :=
  let '(got, p1) := requests_get (BASE_URL +:+ "/data/" +:+ category +:+ ".csv") p in
  match (d <- got;; _ <- raise_for_status d;; read_csv (content d)) with
  | Ok df => store_data category df p1
  | Raise _ => p1
  end.

Definition load_category (p : Process Model) (category : string) : Process Model :=
  load_data category (load_schema category (load_model category p)).

(** The returned tuple refers to the three cache dicts. *)
Definition cached (p : Process Model) :=
  (_cached_models p, _cached_schemas p, _cached_data p).

Definition load_models_and_schemas (p : Process Model)
    : (gmap string Model * gmap string Schema * gmap string Pandas.DataFrame)
      * Process Model :=
  if (nonempty (_cached_models p) && nonempty (_cached_schemas p)
      && nonempty (_cached_data p))%bool
  then (cached p, p)
  else
    let '(categories, p1) := get_categories_from_github p in
    let p2 := foldl load_category p1 categories in
    (cached p2, p2).

End Loader.

(** *** FEATURES *)

Definition defaults : list (string * number) :=
  [ ("rating", Float (Fin 4));
    ("discount", Float (Fin 10));
    ("discount_percentage", Float (Fin 10));
    ("stock", Int 50);
    ("warranty", Int 12);
    ("screen_size", Float (Fin 6));
    ("storage", Int 128);
    ("ram", Int 8);
    ("processor_score", Int 2000);
    ("dimensions", Int 100);
    ("weight", Int 20) ].

Fixpoint assoc_get {V} (d : list (string * V)) (k : string) (dflt : V) : V :=
  match d with
  | [] => dflt
  | (k', v) :: d' => if String.eqb k' k then v else assoc_get d' k dflt
  end.

Definition get_default_value (name : string) : number :=
  assoc_get defaults name (Int 0).

Section Features.
Context `{FloatText}.

(** One pass of the loop body of [prepare_features]: the value
    appended for column [col]. *)
Definition feature_of (data : gmap string pyval) (schema : Schema)
    (col : string) : result number :=
  let cat_cols := categorical_columns schema in
  let encoders := encoders schema in
  if endswith col "_encoded" then
    let original := drop_last 8 col in
    if contains cat_cols original then
      let val := str (default (VStr EmptyString) (data !! original)) in
      let classes := default [] (encoders !! original) in
      Ok (if contains classes val
          then Int (Z.of_nat (default 0%nat (index classes val)))
          else Int 0)
    else Ok (Int 0)
  else
    x <- float (default (VNum (get_default_value col)) (data !! col));;
    Ok (Float x).

(** The [for] loop, appending to [feats]. *)
Fixpoint prepare_loop (data : gmap string pyval) (schema : Schema)
    (cols : list string) (feats : list number) : result (list number) :=
  match cols with
  | [] => Ok feats
  | col :: cols' =>
      x <- feature_of data schema col;;
      prepare_loop data schema cols' (feats ++ [x])
  end.

Definition prepare_features (data : gmap string pyval) (schema : Schema)
    : result (list number) :=
  prepare_loop data schema (feature_columns schema) [].

(** *** MARKET AVERAGE *)

(** [mask = df[name].str.lower() == str(features[name]).lower()
     if mask.any(): df = df[mask]],
    under [if name in features and name in df.columns]; the source has
    it for "brand" and for "material". *)
Definition match_filter (features : gmap string pyval) (name : string)
    (df : DataFrame) : result DataFrame :=
  match features !! name with
  | Some v =>
      if has_column df name then
        col <- getitem df name;;
        mask <- str_lower_eq col (lower (str v));;
        Ok (if any mask then select mask df else df)
      else Ok df
  | None => Ok df
  end.

(** [df = df[abs(df[name] - float(features[name])) <= tol]],
    under [if name in features and name in df.columns]; the source has
    it for storage, ram (twice each) and rating. *)
Definition band_filter (features : gmap string pyval) (name : string)
    (tol : pyfloat) (df : DataFrame) : result DataFrame :=
  match features !! name with
  | Some v =>
      if has_column df name then
        col <- getitem df name;;
        x <- float v;;
        mask <- abs_diff_le col x tol;;
        Ok (select mask df)
      else Ok df
  | None => Ok df
  end.

(** [float(df["price"].mean())] *)
Definition price_mean (df : DataFrame) : result pyfloat :=
  col <- getitem df "price";;
  mean col.

(** The brand filter followed by the category-specific narrowing. *)
Definition narrow (category : string) (features : gmap string pyval)
    (df : DataFrame) : result DataFrame :=
  df <- match_filter features "brand" df;;
  if String.eqb category "phones" then
    df <- band_filter features "storage" (Fin 128) df;;
    band_filter features "ram" (Fin 4) df
  else if String.eqb category "laptops" then
    df <- band_filter features "ram" (Fin 8) df;;
    band_filter features "storage" (Fin 256) df
  else if String.eqb category "furniture" then
    match_filter features "material" df
  else Ok df.

(** The body of the [try] block. *)
Definition market_average_body (category : string)
    (features : gmap string pyval) (full : DataFrame) : result pyfloat :=
  df <- narrow category features full;;
  df <- (if Nat.ltb (len df) 5
         then band_filter features "rating" (Fin 1) full
         else Ok df);;
  if empty df then price_mean full else price_mean df.

Definition calculate_market_average (category : string)
    (features : gmap string pyval) (market_data : gmap string DataFrame)
    : result pyfloat :=
  match market_data !! category with
  | None => Ok (Fin 500)
  | Some full =>
      if empty full then Ok (Fin 500)
      else try_except (market_average_body category features full)
                      (price_mean full)
  end.

End Features.

End Utils.

(* ===================================================================== *)
(** ** A small instance of the float/text interface                      *)
(* ===================================================================== *)

(** Plain decimal literals ([-12], [3.50], [inf], [nan]) and their
    printing; enough to run the embedding on concrete requests. *)
Module DecimalText.

Definition digit_of (c : Ascii.ascii) : option Z :=
  let n := Ascii.nat_of_ascii c in
  if (Nat.leb 48 n && Nat.leb n 57)%bool then Some (Z.of_nat (n - 48)) else None.

(** Reads [digits] then optionally [.digits]; [acc] is the value so far
    and [scale] the power of ten consumed after the point ([None]
    before the point). *)
Fixpoint read_digits (s : string) (acc : Z) (scale : option Z) (seen : bool)
    : option (Z * Z) :=
  match s with
  | EmptyString => if seen then Some (acc, default 1 scale) else None
  | String c s' =>
      match digit_of c with
      | Some d => read_digits s' (10 * acc + d) (option_map (Z.mul 10) scale) true
      | None =>
          if (Ascii.eqb c "."%char && negb (bool_decide (is_Some scale)))%bool
          then read_digits s' acc (Some 1) seen
          else None
      end
  end.

Definition read_unsigned (s : string) : option pyfloat :=
  if String.eqb (lower s) "inf" then Some PInf
  else if String.eqb (lower s) "nan" then Some NaN
  else match read_digits s 0 None false with
       | Some (n, Zpos d) => Some (Fin (Qred (n # d)))
       | _ => None
       end.

Definition parse (s : string) : option pyfloat :=
  match s with
  | String "-"%char s' => option_map fneg (read_unsigned s')
  | String "+"%char s' => read_unsigned s'
  | _ => read_unsigned s
  end.

Fixpoint frac_digits (fuel : nat) (num den : Z) : string :=
  match fuel with
  | O => EmptyString
  | S fuel' =>
      if Z.eqb num 0 then EmptyString
      else pretty (10 * num / den) +:+ frac_digits fuel' (10 * num mod den) den
  end.

Definition print (x : pyfloat) : string :=
  match x with
  | PInf => "inf"
  | NInf => "-inf"
  | NaN => "nan"
  | Fin q =>
      let n := Z.abs (Qnum q) in
      let d := Zpos (Qden q) in
      let frac := frac_digits 17 (n mod d) d in
      (if Z.ltb (Qnum q) 0 then "-" else EmptyString) +:+ pretty (n / d) +:+ "."
        +:+ (if String.eqb frac EmptyString then "0" else frac)
  end.

#[export] Instance decimal_text : FloatText :=
  {| float_of_str := parse; str_of_float := print |}.

End DecimalText.

(* ===================================================================== *)
(** ** The two Flask applications                                        *)
(* ===================================================================== *)

(** What both applications share: the opaque regression model and the
    shape of a route's reply. *)
Module Flask.

(** [float(model.predict([vec])[0])] for a loaded model. *)
Class Predictor (Model : Type) := {
  predict_first : Model -> list number -> result pyfloat
}.

Inductive Reply (A : Type) :=
| Json (body : A)                (* [jsonify(body)], status 200 *)
| NotFound (error : string)      (* [jsonify({"error": ...}), 404] *)
| ServerError (e : exn).         (* [jsonify({"error": str(e)}), 500] *)
Arguments Json {A} body.
Arguments NotFound {A} error.
Arguments ServerError {A} e.

Record Comparison := {
  vs_market : string;
  difference : pyfloat;
  percentage : pyfloat
}.

(** [request.get_json(force=True)]: raises on a body that is not JSON;
    [Ok None] is a falsy document, replaced by [{}] at the call site. *)
Definition Body : Type := result (option (gmap string pyval)).

End Flask.

(** *** price-predictor-backend/app.py *)
Module BackendApp.
Import Pandas Utils Flask.

Record Out := {
  category_of : string;
  predicted_price : pyfloat;
  market_average : pyfloat;
  confidence : pyfloat;
  comparison : Comparison
}.

Section Routes.
Context `{FloatText} {Model : Type} `{Predictor Model}.
(** The module-level [models, schemas, market_data]. *)
Variable models : gmap string Model.
Variable schemas : gmap string Schema.
Variable market_data : gmap string DataFrame.

(** [confidence = max(0.6, min(0.95, float(r2)))] *)
Definition confidence_of (r2 : pyval) : result pyfloat :=
  r2f <- float r2;;
  Ok (fmax (Fin (3 # 5)) (fmin (Fin (19 # 20)) r2f)).

(** The "percentage" entry of [out]:
    [round(abs(pred - avg) / (avg or 1) * 100, 2)] *)
Definition percentage_entry (pred avg : pyfloat) : result pyfloat :=
  ratio <- truediv (fabs (fsub pred avg)) (if truthy avg then avg else Fin 1);;
  Ok (round_nd (fmul ratio (Fin 100)) 2).

(** The [try] block of [predict]. *)
Definition predict_body (category : string) (request_json : Body) : result Out :=
  got <- request_json;;
  let payload := default ∅ got in
  model <- dict_getitem models category;;
  schema <- dict_getitem schemas category;;
  feature_vec <- prepare_features payload schema;;
  pred <- predict_first model feature_vec;;
  avg <- calculate_market_average category payload market_data;;
  schema' <- dict_getitem schemas category;;
  let r2 := default (VNum (Float (Fin (4 # 5))))
              (default ∅ (model_info_field schema') !! "r2_score") in
  confidence <- confidence_of r2;;
  pct <- percentage_entry pred avg;;
  Ok {| category_of := category;
        predicted_price := round_nd pred 2;
        market_average := round_nd avg 2;
        confidence := round_nd confidence 2;
        comparison :=
          {| vs_market := if fgt pred avg then "above" else "below";
             difference := round_nd (fabs (fsub pred avg)) 2;
             percentage := pct |} |}.

Definition predict (category : string) (request_json : Body) : Reply Out :=
  if (negb (bool_decide (is_Some (models !! category)))
      || negb (bool_decide (is_Some (schemas !! category))))%bool
  then NotFound "Category not found"
  else match predict_body category request_json with
       | Ok out => Json out
       | Raise e => ServerError e
       end.

End Routes.

Record PriceStats := {
  price_min : pyfloat;
  price_max : pyfloat;
  price_mean : pyfloat;
  price_median : pyfloat;
  price_std : pyfloat
}.

Record RatingStats := {
  rating_min : pyfloat;
  rating_max : pyfloat;
  rating_mean : pyfloat
}.

(** The [stats] dict; [top_brands] is [None] when the key is not set. *)
Record Stats := {
  stats_category : string;
  total_products : nat;
  price : PriceStats;
  rating : RatingStats;
  top_brands : option (list (string * nat))
}.

Section Statistics.
Context `{SeriesStats}.
Variable market_data : gmap string DataFrame.

(** The [try] block of [market_stats]. *)
Definition market_stats_body (category : string) : result Stats :=
  df <- dict_getitem market_data category;;
  pmin <- (col <- getitem df "price";; series_min col);;
  pmax <- (col <- getitem df "price";; series_max col);;
  pmean <- (col <- getitem df "price";; mean col);;
  pmedian <- (col <- getitem df "price";; series_median col);;
  pstd <- (col <- getitem df "price";; series_std col);;
  rmin <- (col <- getitem df "rating";; series_min col);;
  rmax <- (col <- getitem df "rating";; series_max col);;
  rmean <- (col <- getitem df "rating";; mean col);;
  top <- (if has_column df "brand"
          then col <- getitem df "brand";; Ok (Some (top_counts col))
          else Ok None);;
  Ok {| stats_category := category;
        total_products := len df;
        price := {| price_min := pmin; price_max := pmax; price_mean := pmean;
                    price_median := pmedian; price_std := pstd |};
        rating := {| rating_min := rmin; rating_max := rmax; rating_mean := rmean |};
        top_brands := top |}.

Definition market_stats (category : string) : Reply Stats :=
  if negb (bool_decide (is_Some (market_data !! category)))
  then NotFound "Category not found"
  else match market_stats_body category with
       | Ok stats => Json stats
       | Raise e => ServerError e
       end.

End Statistics.
End BackendApp.

(** *** app.py *)
Module App.
Import Pandas Utils Flask.

Record Resp := {
  category_of : string;
  predicted_price : pyfloat;
  market_average : pyfloat;
  confidence : pyval;
  comparison : Comparison;
  features_used : gmap string pyval
}.

Section Routes.
Context `{FloatText} {Model : Type} `{Predictor Model}.
Variable models : gmap string Model.
Variable schemas : gmap string Schema.
Variable market_data : gmap string DataFrame.

(** [confidence = max(0.6, min(0.95, r2))] *)
Definition confidence_of (r2 : pyval) : result pyval :=
  capped <- min2 (VNum (Float (Fin (19 # 20)))) r2;;
  max2 (VNum (Float (Fin (3 # 5)))) capped.

(** The "percentage" entry of [resp]:
    [round(abs(y_hat - market_avg) / max(market_avg, 1e-6) * 100, 1)] *)
Definition percentage_entry (y_hat market_avg : pyfloat) : result pyfloat :=
  ratio <- truediv (fabs (fsub y_hat market_avg))
                   (fmax market_avg (Fin (1 # 1000000)));;
  Ok (round_nd (fmul ratio (Fin 100)) 1).

(** The [try] block of [predict]. *)
Definition predict_body (category : string) (request_json : Body) : result Resp :=
  got <- request_json;;
  let data := default ∅ got in
  let schema := default empty_schema (schemas !! category) in
  feats <- prepare_features data schema;;
  model <- dict_getitem models category;;
  y_hat <- predict_first model feats;;
  market_avg <- calculate_market_average category data market_data;;
  let model_info := default ∅ (model_info_field schema) in
  confidence <- confidence_of
                  (default (VNum (Float (Fin (4 # 5)))) (model_info !! "r2_score"));;
  shown <- round confidence 2;;
  pct <- percentage_entry y_hat market_avg;;
  Ok {| category_of := category;
        predicted_price := round_nd y_hat 2;
        market_average := round_nd market_avg 2;
        confidence := shown;
        comparison :=
          {| vs_market := if fgt y_hat market_avg then "above" else "below";
             difference := round_nd (fabs (fsub y_hat market_avg)) 2;
             percentage := pct |};
        features_used := data |}.

Definition predict (category : string) (request_json : Body) : Reply Resp :=
  if negb (bool_decide (is_Some (models !! category)))
  then NotFound "Category not found"
  else match predict_body category request_json with
       | Ok resp => Json resp
       | Raise e => ServerError e
       end.

End Routes.

Record PriceStats := {
  price_min : pyfloat;
  price_max : pyfloat;
  price_mean : pyfloat;
  price_median : pyfloat;
  price_std : pyfloat
}.

(** Each entry is [None] when the dataset has no rating column. *)
Record RatingStats := {
  rating_min : option pyfloat;
  rating_max : option pyfloat;
  rating_mean : option pyfloat
}.

Record Stats := {
  stats_category : string;
  total_products : nat;
  price_stats : PriceStats;
  rating_stats : RatingStats;
  top_brands : list (string * nat)
}.

Section Statistics.
Context `{SeriesStats}.
Variable market_data : gmap string DataFrame.

(** [float(df["rating"].f()) if "rating" in df.columns else None] *)
Definition rating_entry (df : DataFrame) (f : Series -> result pyfloat)
    : result (option pyfloat) :=
  if has_column df "rating"
  then col <- getitem df "rating";; x <- f col;; Ok (Some x)
  else Ok None.

(** The [try] block of [market_stats]. *)
Definition market_stats_body (category : string) (df : DataFrame) : result Stats :=
  pmin <- (col <- getitem df "price";; series_min col);;
  pmax <- (col <- getitem df "price";; series_max col);;
  pmean <- (col <- getitem df "price";; mean col);;
  pmedian <- (col <- getitem df "price";; series_median col);;
  pstd <- (col <- getitem df "price";; series_std col);;
  rmin <- rating_entry df series_min;;
  rmax <- rating_entry df series_max;;
  rmean <- rating_entry df mean;;
  top <- (if has_column df "brand"
          then col <- getitem df "brand";; Ok (top_counts col)
          else Ok []);;
  Ok {| stats_category := category;
        total_products := len df;
        price_stats := {| price_min := pmin; price_max := pmax; price_mean := pmean;
                          price_median := pmedian; price_std := pstd |};
        rating_stats := {| rating_min := rmin; rating_max := rmax;
                           rating_mean := rmean |};
        top_brands := top |}.

Definition market_stats (category : string) : Reply Stats :=
  match market_data !! category with
  | None => NotFound "Category not found or data empty"
  | Some df =>
      if empty df then NotFound "Category not found or data empty"
      else match market_stats_body category df with
           | Ok stats => Json stats
           | Raise e => ServerError e
           end
  end.

End Statistics.
End App.

(* ===================================================================== *)
(** ** Small instances of the external collaborators                     *)
(* ===================================================================== *)

Module Samples.
Import Pandas Utils Flask.

(** A linear regressor: one weight per feature; like a fitted
    estimator it rejects a vector of the wrong length. *)
Definition Linear : Type := list Q.

Fixpoint dot (ws : list Q) (xs : list number) : option pyfloat :=
  match ws, xs with
  | [], [] => Some (Fin 0)
  | w :: ws', x :: xs' =>
      option_map (fadd (fmul (Fin w) (float_of_number x))) (dot ws' xs')
  | _, _ => None
  end.

#[export] Instance linear_predictor : Predictor Linear :=
  {| predict_first := fun ws xs =>
       match dot ws xs with
       | Some y => Ok y
       | None => Raise ValueError
       end |}.

(** A three-row furniture table with prices 100, 200, 300. *)
Definition furniture_row (price : Z) : gmap string cell :=
  {[ "price" := CNum (fin_of_Z price);
     "brand" := CStr "Ikea";
     "material" := CStr "Wood";
     "rating" := CNum (Fin 4) ]}.

Definition furniture : DataFrame :=
  {| columns := [("price", Numeric); ("brand", Object);
                 ("material", Object); ("rating", Numeric)];
     rows := [furniture_row 100; furniture_row 200; furniture_row 300] |}.

(** Decoders that accept every body: each model is the one-weight
    regressor, each schema the empty object, each table [furniture];
    the listing is never valid JSON. *)
#[export] Instance constant_decoders : Decoders Linear :=
  {| joblib_load := fun _ => Ok [1%Q];
     json_listing := fun _ => Raise ValueError;
     json_schema := fun _ => Ok empty_schema;
     read_csv := fun _ => Ok furniture |}.

(** A host that is unreachable, and one that answers every request
    with a JSON body. *)
Definition unreachable : nat -> string -> result Response :=
  fun _ _ => Raise ConnectionError.

Definition serving : nat -> string -> result Response :=
  fun _ _ => Ok {| status_code := 200;
                   content_type := Some "application/json";
                   content := "{}" |}.

(** Decoders that read every listing as a directory holding
    [phones.pkl] and [tablets.pkl]. *)
Definition model_listing : list json :=
  [ JObject {[ "name" := JString "phones.pkl"; "type" := JString "file" ]};
    JObject {[ "name" := JString "tablets.pkl" ]} ].

Definition listing_decoders : Decoders Linear :=
  {| joblib_load := fun _ => Ok [1%Q];
     json_listing := fun _ => Ok (JArray model_listing);
     json_schema := fun _ => Ok empty_schema;
     read_csv := fun _ => Ok furniture |}.

(** The answer of [serving], and a host that labels every answer as
    plain text. *)
Definition served : Response :=
  {| status_code := 200; content_type := Some "application/json"; content := "{}" |}.

Definition plain_text_host : nat -> string -> result Response :=
  fun _ _ => Ok {| status_code := 200;
                   content_type := Some "text/plain; charset=utf-8";
                   content := "{}" |}.

(** Six furniture rows, and five phones with their storage and ram. *)
Definition showroom : DataFrame :=
  {| columns := [("price", Numeric); ("brand", Object);
                 ("material", Object); ("rating", Numeric)];
     rows := map furniture_row [100; 200; 300; 400; 500; 600] |}.

Definition phone_row (price storage ram : Z) : gmap string cell :=
  {[ "price" := CNum (fin_of_Z price);
     "storage" := CNum (fin_of_Z storage);
     "ram" := CNum (fin_of_Z ram) ]}.

Definition phone_table : DataFrame :=
  {| columns := [("price", Numeric); ("storage", Numeric); ("ram", Numeric)];
     rows := [ phone_row 300 64 4; phone_row 500 128 8; phone_row 700 256 8;
               phone_row 900 512 12; phone_row 1100 1024 16 ] |}.

(** Furniture priced 8 throughout. *)
Definition eights : DataFrame :=
  {| columns := [("price", Numeric)];
     rows := [ {[ "price" := CNum (Fin 8) ]}; {[ "price" := CNum (Fin 8) ]} ] |}.

(** Column reductions for concrete runs: the least and the greatest
    cell of a numeric column; the median and the deviation are left
    undefined (NaN) and no brand is counted. *)
Definition least (xs : list pyfloat) : pyfloat :=
  foldr (fun x acc => if is_nan acc then x else if flt x acc then x else acc) NaN xs.

Definition greatest (xs : list pyfloat) : pyfloat :=
  foldr (fun x acc => if is_nan acc then x else if flt acc x then x else acc) NaN xs.

#[export] Instance plain_stats : SeriesStats :=
  {| series_min := fun s => match s with
                            | NumS xs => Ok (least xs)
                            | ObjS _ => Raise TypeError
                            end;
     series_max := fun s => match s with
                            | NumS xs => Ok (greatest xs)
                            | ObjS _ => Raise TypeError
                            end;
     series_median := fun _ => Ok NaN;
     series_std := fun _ => Ok NaN;
     top_counts := fun _ => [] |}.

(** A price list without ratings. *)
Definition unrated : DataFrame :=
  {| columns := [("price", Numeric)];
     rows := [ {[ "price" := CNum (Fin 10) ]}; {[ "price" := CNum (Fin 30) ]} ] |}.

(** The phone schema of the specification's example, and a request
    for it. *)
Definition phone_schema : Schema :=
  {| feature_columns_field := Some ["ram"; "storage_encoded"];
     categorical_columns_field := Some ["storage"];
     encoders_field := Some {[ "storage" := ["64"; "128"; "256"] ]};
     model_info_field := None |}.

Definition phone_request : gmap string pyval :=
  {[ "ram" := VNum (Int 6); "storage" := VStr "128" ]}.

Definition phone_models : gmap string Linear := {[ "phones" := [1%Q; 2%Q] ]}.

(** A schema with one plain feature and a quality score of -5. *)
Definition ram_schema : Schema :=
  {| feature_columns_field := Some ["ram"];
     categorical_columns_field := None;
     encoders_field := None;
     model_info_field := Some {[ "r2_score" := VNum (Int (-5)) ]} |}.

(** Furniture given away: three rows priced 0. *)
Definition free_furniture : DataFrame :=
  {| columns := [("price", Numeric); ("brand", Object);
                 ("material", Object); ("rating", Numeric)];
     rows := [furniture_row 0; furniture_row 0; furniture_row 0] |}.

Definition base_url : string := "https://raw.githubusercontent.com/shop/prices/main".

(** The process after one and after two loads from an unreachable
    host, and after one load from a serving host. *)
Definition unreachable_once : Process Linear :=
  snd (load_models_and_schemas base_url unreachable (fresh Linear)).
Definition unreachable_twice : Process Linear :=
  snd (load_models_and_schemas base_url unreachable unreachable_once).
Definition served_once : Process Linear :=
  snd (load_models_and_schemas base_url serving (fresh Linear)).

(** Decoders that accept a body of their own kind only: one pickled
    regressor, the empty JSON object as a schema, one CSV text; no body
    is a listing. *)
Definition newline : string := String (ascii_of_nat 10) EmptyString.

Definition pickle_body : string := "weights 1".
Definition schema_body : string := "{}".
Definition csv_body : string := "price" +:+ newline +:+ "8" +:+ newline +:+ "8".

Definition strict_decoders : Decoders Linear :=
  {| joblib_load := fun b => if String.eqb b pickle_body
                             then Ok [1%Q] else Raise ValueError;
     json_listing := fun _ => Raise ValueError;
     json_schema := fun b => if String.eqb b schema_body
                             then Ok empty_schema else Raise ValueError;
     read_csv := fun b => if String.eqb b csv_body
                          then Ok eights else Raise ValueError |}.

(** A file host: it answers by the extension of the address, with the
    pickle for [.pkl], the schema (labelled as JSON) for [.json] and
    the table for [.csv]; it serves nothing else. *)
Fixpoint last_char (s : string) : option Ascii.ascii :=
  match s with
  | EmptyString => None
  | String c s' => match last_char s' with
                   | None => Some c
                   | Some d => Some d
                   end
  end.

Definition file_host : nat -> string -> result Response :=
  fun _ url =>
    match last_char url with
    | Some "l"%char => Ok {| status_code := 200;
                             content_type := Some "application/octet-stream";
                             content := pickle_body |}
    | Some "n"%char => Ok {| status_code := 200;
                             content_type := Some "application/json";
                             content := schema_body |}
    | Some "v"%char => Ok {| status_code := 200;
                             content_type := Some "text/plain; charset=utf-8";
                             content := csv_body |}
    | _ => Raise ConnectionError
    end.

(** Six phones whose brand column holds numbers (a code, or nothing but
    blanks): five of storage 128 priced 100 to 500, one of storage 1024
    priced 9000; and a request for a branded phone of storage 128. *)
Definition coded_phone (price storage : Z) : gmap string cell :=
  {[ "price" := CNum (fin_of_Z price);
     "brand" := CNum (Fin 7);
     "storage" := CNum (fin_of_Z storage) ]}.

Definition coded_phones : DataFrame :=
  {| columns := [("price", Numeric); ("brand", Numeric); ("storage", Numeric)];
     rows := [ coded_phone 100 128; coded_phone 200 128; coded_phone 300 128;
               coded_phone 400 128; coded_phone 500 128; coded_phone 9000 1024 ] |}.

Definition branded_request : gmap string pyval :=
  {[ "brand" := VStr "Acme"; "storage" := VNum (Int 128) ]}.

(** A table without a price column, and one whose prices are texts. *)
Definition unpriced : DataFrame :=
  {| columns := [("brand", Object)];
     rows := [ {[ "brand" := CStr "Ikea" ]} ] |}.

Definition worded_prices : DataFrame :=
  {| columns := [("price", Object)];
     rows := [ {[ "price" := CStr "cheap" ]}; {[ "price" := CStr "dear" ]} ] |}.


End Samples.

(* ===================================================================== *)
(** ** The specification's wording, as definitions                       *)
(* ===================================================================== *)

Module Spec.
Import Pandas Utils.

Definition listed_defaults : list string :=
  ["rating"; "discount"; "discount_percentage"; "stock"; "warranty";
   "screen_size"; "storage"; "ram"; "processor_score"; "dimensions"; "weight"].

(** The fixed per-name default table. *)
Inductive default_of : string -> Q -> Prop :=
| default_rating : default_of "rating" 4
| default_discount : default_of "discount" 10
| default_discount_percentage : default_of "discount_percentage" 10
| default_stock : default_of "stock" 50
| default_warranty : default_of "warranty" 12
| default_screen_size : default_of "screen_size" 6
| default_storage : default_of "storage" 128
| default_ram : default_of "ram" 8
| default_processor_score : default_of "processor_score" 2000
| default_dimensions : default_of "dimensions" 100
| default_weight : default_of "weight" 20
| default_unlisted name : name ∉ listed_defaults -> default_of name 0.

(** [i] is the ordinal position of [val] within [classes], or 0 when
    [val] is absent from the list. *)
Definition position (classes : list string) (val : string) (i : nat) : Prop :=
  (classes !! i = Some val /\ forall j, (j < i)%nat -> classes !! j <> Some val)
  \/ ((val ∉ classes) /\ i = 0%nat).

Section Features.
Context `{FloatText}.
Variable data : gmap string pyval.
Variable schema : Schema.

(** The number that a feature column name is mapped to. *)
Inductive feature_value : string -> number -> Prop :=
| encoded_categorical base i :
    base ∈ categorical_columns schema ->
    position (default [] (encoders schema !! base))
             (str (default (VStr EmptyString) (data !! base))) i ->
    feature_value (base +:+ "_encoded") (Int (Z.of_nat i))
| encoded_undeclared base :
    base ∉ categorical_columns schema ->
    feature_value (base +:+ "_encoded") (Int 0)
| numeric_supplied col v x :
    (forall base, col <> (base +:+ "_encoded")) ->
    data !! col = Some v ->
    float v = Ok x ->
    feature_value col (Float x)
| numeric_defaulted col q :
    (forall base, col <> (base +:+ "_encoded")) ->
    data !! col = None ->
    default_of col q ->
    feature_value col (Float (Fin q)).

(** Every supplied value of a plain numeric feature can be coerced
    to a float. *)
Definition numeric_inputs_coercible : Prop :=
  forall col v,
    col ∈ feature_columns schema ->
    (forall base, col <> (base +:+ "_encoded")) ->
    data !! col = Some v ->
    exists x, float v = Ok x.

End Features.

(** *** Market comparison *)

(** The rows of [df] that satisfy [keep], with the columns of [df]. *)
Definition restrict (keep : gmap string cell -> bool) (df : DataFrame) : DataFrame :=
  {| columns := columns df; rows := List.filter keep (rows df) |}.

(** [r] holds, under [name], a text equal to [v] up to letter case. *)
Definition text_matches `{FloatText} (name : string) (v : pyval)
    (r : gmap string cell) : bool :=
  match r !! name with
  | Some (CStr s) => String.eqb (lower s) (lower (str v))
  | _ => false
  end.

(** [r] holds, under [name], a number that differs from [x] by at most
    [tol]. *)
Definition within (name : string) (x tol : pyfloat) (r : gmap string cell) : bool :=
  match r !! name with
  | Some (CNum y) => fle (fabs (fsub y x)) tol
  | _ => false
  end.

(** [df'] keeps the columns of [df] and some of its rows, in order. *)
Definition subframe (df' df : DataFrame) : Prop :=
  columns df' = columns df /\ sublist (rows df') (rows df).


(** The price cells of a list of rows. *)
Definition prices (rs : list (gmap string cell)) : list pyfloat :=
  map (num_cell "price") rs.

(** What the brand step makes of [df] for a supplied brand [b] when the
    brand column is text: the rows whose brand is [b] up to letter case
    when there is one, and [df] itself when there is none. *)
Definition brand_filtered `{FloatText} (b : pyval) (df : DataFrame) : DataFrame :=
  match List.filter (text_matches "brand" b) (rows df) with
  | [] => df
  | _ => restrict (text_matches "brand" b) df
  end.

(** The steps of the comparison that follow the brand step, run from the
    set [start]: the category-specific narrowing of [start], the restart
    from [full] with the rating filter when fewer than 5 rows remain,
    and the mean price of the final set, or of [full] when that set is
    empty. *)
Definition narrowed_from `{FloatText} (category : string)
    (features : gmap string pyval) (start full : DataFrame) : result pyfloat :=
  df <- narrow category features start;;
  df <- (if Nat.ltb (len df) 5
         then band_filter features "rating" (Fin 1) full
         else Ok df);;
  if empty df then price_mean full else price_mean df.

(** *** Prediction result *)

(** The quality score of a schema: [model_info.r2_score], 0.8 when the
    schema does not give one. *)
Definition r2_score_of (schema : Schema) : pyval :=
  default (VNum (Float (Fin (4 # 5))))
          (default ∅ (model_info_field schema) !! "r2_score").

(** A score clamped into [[3/5, 19/20]]: floored at 3/5, capped at
    19/20. *)
Definition clamp (q : Q) : Q :=
  if Qlt_le_dec (3 # 5) q
  then (if Qlt_le_dec q (19 # 20) then q else 19 # 20)
  else 3 # 5.

(** [|predicted - average| / max(average, 1e-6) * 100], rounded to
    [digits] decimals. *)
Definition percentage_formula (predicted average : pyfloat) (digits : nat) : pyfloat :=
  round_nd
    (fmul (fdiv_nz (fabs (fsub predicted average))
                   (fmax average (Fin (1 # 1000000))))
          (Fin 100))
    digits.

(** *** Artifact loading *)

(** The address that category discovery requests. *)
Definition api_url (BASE_URL : string) : string :=
  replace
    (replace (MODELS_URL BASE_URL) "https://raw.githubusercontent.com/"
                                   "https://api.github.com/repos/")
    "/main" "/contents/models".

(** The category list that discovery draws from the host's answer. *)
Definition discovered_from `{Decoders Model} (answer : result Response) : list string :=
  match (resp <- answer;;
         _ <- raise_for_status resp;;
         files <- json_listing (content resp);;
         categories_of_listing files) with
  | Ok cats => cats
  | Raise _ => default_categories
  end.

(** The three addresses requested for one category, in order. *)
Definition artifact_urls (BASE_URL category : string) : list string :=
  [ BASE_URL +:+ "/models/" +:+ category +:+ ".pkl";
    BASE_URL +:+ "/schemas/" +:+ category +:+ ".json";
    BASE_URL +:+ "/data/" +:+ category +:+ ".csv" ].

(** The category list is not cached yet. *)
Definition undiscovered {Model} (p : Process Model) : Prop :=
  _cached_categories p = None \/ _cached_categories p = Some [].

(** The three caches are all non-empty: the early return of the loader. *)
Definition filled {Model} (p : Process Model) : bool :=
  (nonempty (_cached_models p) && nonempty (_cached_schemas p)
   && nonempty (_cached_data p))%bool.

(** What a step may do to the caches: keep every key, add at most
    the keys [cats]. *)
Definition extends {Model} (cats : list string) (p p' : Process Model) : Prop :=
  _cached_categories p' = _cached_categories p
  /\ forall k,
      ((is_Some (_cached_models p !! k) -> is_Some (_cached_models p' !! k))
       /\ (is_Some (_cached_models p' !! k) ->
           is_Some (_cached_models p !! k) \/ k ∈ cats))
      /\ ((is_Some (_cached_schemas p !! k) -> is_Some (_cached_schemas p' !! k))
          /\ (is_Some (_cached_schemas p' !! k) ->
              is_Some (_cached_schemas p !! k) \/ k ∈ cats))
      /\ ((is_Some (_cached_data p !! k) -> is_Some (_cached_data p' !! k))
          /\ (is_Some (_cached_data p' !! k) ->
              is_Some (_cached_data p !! k) \/ k ∈ cats)).

(** No full stop occurs in [s]. *)
Fixpoint dot_free (s : string) : bool :=
  match s with
  | EmptyString => true
  | String c s' => (negb (Ascii.eqb c ".") && dot_free s')%bool
  end.

(** Every answer of the host lacks "json" in its Content-Type. *)
Definition never_json (network : nat -> string -> result Response) : Prop :=
  forall n url resp,
    network n url = Ok resp ->
    is_infix "json" (default EmptyString (content_type resp)) = false.

(** The host serves every artifact of every category: at each of the
    three addresses of a category the answer has a success status and a
    body that the decoder of that address accepts ([joblib.load] for
    the model, [json()] for the schema, [pd.read_csv] for the data), and
    the schema's answer is labelled as JSON. *)
Definition serves_everything `{Decoders Model} (BASE_URL : string)
    (network : nat -> string -> result Response) : Prop :=
  forall n category,
    (exists resp m,
        network n (BASE_URL +:+ "/models/" +:+ category +:+ ".pkl") = Ok resp
        /\ raise_for_status resp = Ok tt
        /\ joblib_load (content resp) = Ok m)
    /\ (exists resp s,
           network n (BASE_URL +:+ "/schemas/" +:+ category +:+ ".json") = Ok resp
           /\ raise_for_status resp = Ok tt
           /\ is_infix "json" (default EmptyString (content_type resp)) = true
           /\ json_schema (content resp) = Ok s)
    /\ (exists resp d,
           network n (BASE_URL +:+ "/data/" +:+ category +:+ ".csv") = Ok resp
           /\ raise_for_status resp = Ok tt
           /\ read_csv (content resp) = Ok d).

(** A directory entry of the listing named [base.pkl]. *)
Definition pkl_entry (item : json) (base : string) : Prop :=
  exists o, item = JObject o /\ o !! "name" = Some (JString (base +:+ ".pkl")).

(** *** Which attributes the comparison reads *)

Definition relevant (category : string) : list string :=
  "brand" :: "rating" ::
  (if String.eqb category "phones" then ["storage"; "ram"]
   else if String.eqb category "laptops" then ["ram"; "storage"]
   else if String.eqb category "furniture" then ["material"]
   else []).

(** The steps that both [predict] handlers run before they assemble
    the reply: the feature vector, the predicted price and the market
    average. *)
Definition estimate `{FloatText} {Model : Type} `{Flask.Predictor Model}
    (market_data : gmap string DataFrame) (category : string)
    (model : Model) (schema : Schema) (data : gmap string pyval)
    : result (pyfloat * pyfloat) :=
  feats <- prepare_features data schema;;
  y <- Flask.predict_first model feats;;
  avg <- calculate_market_average category data market_data;;
  Ok (y, avg).

(** Two supplied values read alike as a text (up to letter case) or as
    a number. *)
Definition same_text `{FloatText} (o o' : option pyval) : Prop :=
  match o, o' with
  | Some v, Some v' => lower (str v) = lower (str v')
  | None, None => True
  | _, _ => False
  end.

Definition same_number `{FloatText} (o o' : option pyval) : Prop :=
  match o, o' with
  | Some v, Some v' => float v = float v'
  | None, None => True
  | _, _ => False
  end.

Definition same_reading `{FloatText} (key : string) (o o' : option pyval) : Prop :=
  if (String.eqb key "brand" || String.eqb key "material")%bool
  then same_text o o'
  else same_number o o'.

(** Two requests read alike under every attribute that the comparison
    of [category] consults. *)
Definition agree `{FloatText} (category : string)
    (features features' : gmap string pyval) : Prop :=
  forall key, key ∈ relevant category ->
              same_reading key (features !! key) (features' !! key).

End Spec.

(* ===================================================================== *)
(** ** Properties                                                         *)
(* ===================================================================== *)

Import Pandas Utils Flask Spec.

(** *** Strings *)

Lemma substring_0_length (s : string) : String.substring 0 (String.length s) s = s.
Proof. induction s as [|c s IH]; simpl; [reflexivity | now rewrite IH]. Qed.

Lemma substring_0_app (a b : string) :
  String.substring 0 (String.length a) (a +:+ b) = a.
Proof.
  induction a as [|c a IH]; simpl.
  - destruct b; reflexivity.
  - now rewrite IH.
Qed.

Lemma substring_skip_app (a b : string) (n : nat) :
  String.substring (String.length a) n (a +:+ b) = String.substring 0 n b.
Proof. induction a as [|c a IH]; simpl; [reflexivity | exact IH]. Qed.

Lemma string_length_app (a b : string) :
  String.length (a +:+ b) = (String.length a + String.length b)%nat.
Proof. induction a as [|c a IH]; simpl; [reflexivity | now rewrite IH]. Qed.

Lemma substring_split (s : string) (m : nat) :
  (m <= String.length s)%nat ->
  s = String.substring 0 m s +:+ String.substring m (String.length s - m) s.
Proof.
  revert m; induction s as [|c s IH]; intros m Hm; simpl in *.
  - destruct m; reflexivity.
  - destruct m as [|m]; simpl.
    + now rewrite substring_0_length.
    + change (String c s = String c (String.substring 0 m s +:+
                 String.substring m (String.length s - m) s)).
      f_equal. apply IH. lia.
Qed.

Lemma endswith_app (base suf : string) : endswith (base +:+ suf) suf = true.
Proof.
  unfold endswith. rewrite string_length_app.
  replace (String.length base + String.length suf - String.length suf)%nat
    with (String.length base) by lia.
  rewrite substring_skip_app, substring_0_length.
  apply andb_true_intro; split.
  - apply Nat.leb_le. lia.
  - apply String.eqb_refl.
Qed.

Lemma drop_last_app (base suf : string) :
  drop_last (String.length suf) (base +:+ suf) = base.
Proof.
  unfold drop_last. rewrite string_length_app.
  replace (String.length base + String.length suf - String.length suf)%nat
    with (String.length base) by lia.
  apply substring_0_app.
Qed.

Lemma endswith_inv (s suf : string) :
  endswith s suf = true -> s = drop_last (String.length suf) s +:+ suf.
Proof.
  unfold endswith, drop_last. intros Hs.
  apply andb_prop in Hs as [Hle Heq].
  apply Nat.leb_le in Hle. apply String.eqb_eq in Heq.
  rewrite (substring_split s (String.length s - String.length suf)) at 1 by lia.
  f_equal.
  replace (String.length s - (String.length s - String.length suf))%nat
    with (String.length suf) by lia.
  exact Heq.
Qed.

Lemma endswith_false (s suf : string) :
  endswith s suf = false <-> forall base, s <> (base +:+ suf).
Proof.
  split.
  - intros Hf base ->. now rewrite endswith_app in Hf.
  - intros Hne. destruct (endswith s suf) eqn:E; [|reflexivity].
    exfalso. exact (Hne _ (endswith_inv _ _ E)).
Qed.

(** *** Lists of labels *)

Lemma contains_elem_of (xs : list string) (v : string) :
  contains xs v = true <-> v ∈ xs.
Proof.
  unfold contains. rewrite existsb_exists. split.
  - intros (x & Hin & Heq). apply String.eqb_eq in Heq. subst.
    now apply list_elem_of_In.
  - intros Hin. exists v. split; [now apply list_elem_of_In | apply String.eqb_refl].
Qed.

Lemma index_first (xs : list string) (v : string) (i : nat) :
  index xs v = Some i ->
  xs !! i = Some v /\ forall j, (j < i)%nat -> xs !! j <> Some v.
Proof.
  revert i; induction xs as [|x xs IH]; intros i; simpl; [discriminate|].
  destruct (String.eqb x v) eqn:E.
  - intros [= <-]. apply String.eqb_eq in E. subst. split; [reflexivity | lia].
  - destruct (index xs v) as [k|]; simpl; [|discriminate].
    intros [= <-]. destruct (IH k eq_refl) as [Hk Hlt]. split; [exact Hk|].
    intros [|j] Hj; simpl.
    + intros [= ->]. now rewrite String.eqb_refl in E.
    + apply Hlt. lia.
Qed.

Lemma index_contains (xs : list string) (v : string) :
  contains xs v = true -> exists i, index xs v = Some i.
Proof.
  induction xs as [|x xs IH]; simpl; [discriminate|].
  rewrite (String.eqb_sym v x).
  destruct (String.eqb x v); simpl; [eauto|].
  intros Hc. destruct (IH Hc) as [i ->]. simpl. eauto.
Qed.

(** *** FeatureVectorBuilder *)

Lemma get_default_value_spec (name : string) :
  exists q, default_of name q /\ float_of_number (get_default_value name) = Fin q.
Proof.
  destruct (decide (name ∈ listed_defaults)) as [Hin|Hout].
  - unfold listed_defaults in Hin.
    repeat (apply elem_of_cons in Hin as [->|Hin];
            [eexists; split; [constructor | reflexivity] | ]).
    now apply elem_of_nil in Hin.
  - exists 0%Q. split; [now constructor|].
    unfold get_default_value, defaults. cbn [assoc_get].
    unfold listed_defaults in Hout.
    repeat match goal with
           | |- context [String.eqb ?k name] =>
               destruct (String.eqb_spec k name) as [<-|_];
               [exfalso; apply Hout; set_solver | ]
           end.
    reflexivity.
Qed.

Section FeatureVectorBuilder.
Context `{FloatText}.
Variable data : gmap string pyval.
Variable schema : Schema.

(** The loop appends exactly one value per column, in order. *)
Lemma prepare_loop_ok (cols : list string) (feats : list number) :
  (forall col, col ∈ cols -> exists x, feature_of data schema col = Ok x) ->
  exists vec,
    prepare_loop data schema cols feats = Ok (feats ++ vec)
    /\ Forall2 (fun col x => feature_of data schema col = Ok x) cols vec.
Proof.
  revert feats; induction cols as [|col cols IH]; intros feats Hall; simpl.
  - exists []. rewrite app_nil_r. split; [reflexivity | constructor].
  - destruct (Hall col) as [x Hx]; [set_solver|]. rewrite Hx. simpl.
    destruct (IH (feats ++ [x])) as (vec & Hvec & Hrel); [set_solver|].
    exists (x :: vec). rewrite Hvec, <- app_assoc. split; [reflexivity|].
    now constructor.
Qed.

Lemma prepare_loop_inv (cols : list string) (feats out : list number) :
  prepare_loop data schema cols feats = Ok out ->
  forall col, col ∈ cols -> exists x, feature_of data schema col = Ok x.
Proof.
  revert feats; induction cols as [|col cols IH]; intros feats Hout c Hc.
  - now apply elem_of_nil in Hc.
  - simpl in Hout. destruct (feature_of data schema col) as [x|e] eqn:E;
      simpl in Hout; [|discriminate].
    apply elem_of_cons in Hc as [->|Hc]; [eauto | eapply IH; eauto].
Qed.

(** What one column contributes, against the specification's mapping. *)
Lemma feature_of_sound (col : string) (x : number) :
  feature_of data schema col = Ok x -> feature_value data schema col x.
Proof.
  unfold feature_of. destruct (endswith col "_encoded") eqn:E.
  - pose proof (endswith_inv _ _ E) as Hcol. simpl String.length in Hcol.
    set (base := drop_last 8 col) in *. rewrite Hcol. clearbody base.
    destruct (contains (categorical_columns schema) base) eqn:C.
    + apply contains_elem_of in C.
      set (val := str (default (VStr EmptyString) (data !! base))).
      set (classes := default [] (encoders schema !! base)).
      destruct (contains classes val) eqn:V.
      * destruct (index_contains _ _ V) as [i Hi]. rewrite Hi. simpl.
        intros [= <-]. apply encoded_categorical; [exact C|].
        left. now apply index_first.
      * intros [= <-]. apply (encoded_categorical data schema base 0); [exact C|].
        right. split; [|reflexivity].
        intros Hin. apply contains_elem_of in Hin. fold val classes in Hin. congruence.
    + intros [= <-]. apply encoded_undeclared.
      intros Hin. apply contains_elem_of in Hin. congruence.
  - pose proof (proj1 (endswith_false _ _) E) as Hplain.
    destruct (data !! col) as [v|] eqn:D; simpl.
    + destruct (float v) as [y|e] eqn:F; simpl; [|discriminate].
      intros [= <-]. now apply numeric_supplied with v.
    + destruct (get_default_value_spec col) as (q & Hq & Hf).
      rewrite Hf. intros [= <-]. now apply numeric_defaulted.
Qed.

(** A column fails only through the float coercion of a supplied value. *)
Lemma feature_of_ok (col : string) :
  (forall v, (forall base, col <> (base +:+ "_encoded")) ->
             data !! col = Some v -> exists x, float v = Ok x) ->
  exists x, feature_of data schema col = Ok x.
Proof.
  intros Hco. unfold feature_of. destruct (endswith col "_encoded") eqn:E.
  - destruct (contains _ _); eauto.
  - pose proof (proj1 (endswith_false _ _) E) as Hplain.
    destruct (data !! col) as [v|] eqn:D; simpl.
    + destruct (Hco v Hplain eq_refl) as [x ->]. simpl. eauto.
    + eauto.
Qed.

Lemma feature_of_coercible (col : string) (x : number) (v : pyval) :
  feature_of data schema col = Ok x ->
  (forall base, col <> (base +:+ "_encoded")) ->
  data !! col = Some v ->
  exists y, float v = Ok y.
Proof.
  unfold feature_of. intros Hx Hplain Hv.
  apply (proj2 (endswith_false _ _)) in Hplain. rewrite Hplain, Hv in Hx. simpl in Hx.
  destruct (float v) as [y|e]; [eauto | discriminate].
Qed.

Lemma prepare_features_on_coercible :
  numeric_inputs_coercible data schema ->
  exists vec,
    prepare_features data schema = Ok vec
    /\ Forall2 (feature_value data schema) (feature_columns schema) vec.
Proof.
  intros Hco. unfold prepare_features.
  destruct (prepare_loop_ok (feature_columns schema) []) as (vec & Hvec & Hrel).
  - intros col Hin. apply feature_of_ok. intros v Hplain Hv.
    exact (Hco col v Hin Hplain Hv).
  - exists vec. split; [exact Hvec|].
    eapply Forall2_impl; [exact Hrel|]. intros col x. apply feature_of_sound.
Qed.

(** C1 (amended). For a schema and a raw attribute mapping whose values
    supplied under the plain numeric feature columns can each be
    coerced by [float], [prepare_features] returns the vector that maps
    each name of [feature_columns], in order, to exactly one number (so
    its length is that of [feature_columns]): for [base_encoded] with
    [base] a declared categorical, the position of the raw value of
    [base] (as a string, the empty string when missing) within
    [encoders[base]], 0 when absent; for [base_encoded] with [base]
    undeclared, 0; for any other name the raw value coerced to float or,
    when absent, the fixed per-name default. *)
Theorem prepare_features_spec :
  numeric_inputs_coercible data schema ->
  exists vec,
    prepare_features data schema = Ok vec
    /\ length vec = length (feature_columns schema)
    /\ Forall2 (feature_value data schema) (feature_columns schema) vec.
Proof.
  intros Hco.
  destruct (prepare_features_on_coercible Hco) as (vec & Hvec & Hrel).
  exists vec. split; [exact Hvec|]. split; [|exact Hrel].
  symmetry. exact (Forall2_length _ _ _ Hrel).
Qed.

(** C4 (amended). [prepare_features] raises no error exactly when every
    supplied value of a plain numeric feature can be coerced to a
    float: missing keys and labels unknown to an encoder are replaced
    by defaults, a supplied value that is not numeric is not. *)
Theorem prepare_features_returns_iff :
  (exists vec, prepare_features data schema = Ok vec)
  <-> numeric_inputs_coercible data schema.
Proof.
  split.
  - intros [vec Hvec] col v Hin Hplain Hv.
    destruct (prepare_loop_inv _ _ _ Hvec col Hin) as [x Hx].
    exact (feature_of_coercible col x v Hx Hplain Hv).
  - intros Hco. destruct (prepare_features_on_coercible Hco) as (vec & Hvec & _).
    eauto.
Qed.

End FeatureVectorBuilder.

(** *** Row selection *)

Lemma select_rows_map {A} (f : A -> bool) (rs : list A) :
  select_rows (map f rs) rs = List.filter f rs.
Proof.
  induction rs as [|r rs IH]; simpl; [reflexivity|].
  destruct (f r); now rewrite IH.
Qed.

Lemma select_rows_map2 {A B} (g : A -> B) (f : B -> bool) (rs : list A) :
  select_rows (map f (map g rs)) rs = List.filter (fun r => f (g r)) rs.
Proof. rewrite map_map. apply (select_rows_map (fun r => f (g r))). Qed.

Lemma select_rows_sublist {A} (mask : list bool) (rs : list A) :
  sublist (select_rows mask rs) rs.
Proof.
  revert mask; induction rs as [|r rs IH]; intros [|b mask]; simpl;
    try apply sublist_nil_l.
  destruct b; [apply sublist_skip | apply sublist_cons]; apply IH.
Qed.

Lemma any_select_rows {A} (mask : list bool) (rs : list A) :
  length mask = length rs -> any mask = true -> select_rows mask rs <> [].
Proof.
  revert mask; induction rs as [|r rs IH]; intros [|b mask]; simpl;
    try discriminate.
  intros [= Hlen]. destruct b; simpl; [discriminate|]. now apply IH.
Qed.


Lemma existsb_filter_nil {A} (f : A -> bool) (rs : list A) :
  existsb f rs = false <-> List.filter f rs = [].
Proof.
  induction rs as [|r rs IH]; simpl; [tauto|].
  destruct (f r); simpl; [split; discriminate | exact IH].
Qed.

Lemma any_map {A} (f : A -> bool) (rs : list A) :
  any (map f rs) = existsb f rs.
Proof.
  unfold any. induction rs as [|r rs IH]; simpl; [reflexivity|].
  now rewrite IH.
Qed.

Lemma subframe_refl (df : DataFrame) : subframe df df.
Proof. split; reflexivity. Qed.

Lemma subframe_trans (a b c : DataFrame) :
  subframe a b -> subframe b c -> subframe a c.
Proof.
  intros [Hc1 Hr1] [Hc2 Hr2]. split; [congruence|].
  etransitivity; eassumption.
Qed.

Lemma subframe_select (mask : list bool) (df : DataFrame) :
  subframe (select mask df) df.
Proof. split; [reflexivity | apply select_rows_sublist]. Qed.


Lemma has_column_dtype (df : DataFrame) (name : string) (t : dtype) :
  dtype_of (columns df) name = Some t -> has_column df name = true.
Proof. unfold has_column. now intros ->. Qed.

#[global] Arguments flt : simpl never.
#[global] Arguments fle : simpl never.
#[global] Arguments round_nd : simpl never.

Section MarketComparator.
Context `{FloatText}.

Lemma within_num_cell (name : string) (x tol : pyfloat) (r : gmap string cell) :
  fle (fabs (fsub (num_cell name r) x)) tol = within name x tol r.
Proof.
  unfold within, num_cell. destruct (r !! name) as [[y|s]|]; try reflexivity.
  all: destruct x; reflexivity.
Qed.

(** The text filter on an object column. *)
Lemma match_filter_object (features : gmap string pyval) (name : string)
    (v : pyval) (df : DataFrame) :
  features !! name = Some v ->
  dtype_of (columns df) name = Some Object ->
  match_filter features name df =
    Ok (match List.filter (text_matches name v) (rows df) with
        | [] => df
        | _ => restrict (text_matches name v) df
        end).
Proof.
  intros Hv Ht. unfold match_filter. rewrite Hv, (has_column_dtype _ _ _ Ht).
  unfold getitem. rewrite Ht. simpl. f_equal.
  rewrite map_map.
  set (f := fun r : gmap string cell => _).
  assert (Hf : forall r, f r = text_matches name v r).
  { intros r. unfold f, obj_cell, text_matches.
    destruct (r !! name) as [[y|s]|]; reflexivity. }
  rewrite (map_ext _ _ Hf), any_map.
  destruct (existsb (text_matches name v) (rows df)) eqn:E.
  - assert (Hne : List.filter (text_matches name v) (rows df) <> []).
    { intros Hnil. apply existsb_filter_nil in Hnil. congruence. }
    unfold select, restrict. rewrite select_rows_map.
    destruct (List.filter (text_matches name v) (rows df)); [congruence | reflexivity].
  - apply existsb_filter_nil in E. now rewrite E.
Qed.

(** The tolerance band on a numeric column. *)
Lemma band_filter_numeric (features : gmap string pyval) (name : string)
    (v : pyval) (x tol : pyfloat) (df : DataFrame) :
  features !! name = Some v ->
  float v = Ok x ->
  dtype_of (columns df) name = Some Numeric ->
  band_filter features name tol df = Ok (restrict (within name x tol) df).
Proof.
  intros Hv Hx Ht. unfold band_filter. rewrite Hv, (has_column_dtype _ _ _ Ht).
  unfold getitem. rewrite Ht. simpl. rewrite Hx. simpl. f_equal.
  unfold select, restrict. f_equal.
  rewrite select_rows_map2. apply filter_ext. intros r.
  apply within_num_cell.
Qed.


(** Whatever a filter returns is a selection of its input. *)
Lemma match_filter_subframe (features : gmap string pyval) (name : string)
    (df df' : DataFrame) :
  match_filter features name df = Ok df' -> subframe df' df.
Proof.
  unfold match_filter. destruct (features !! name) as [v|];
    [|intros [= <-]; apply subframe_refl].
  destruct (has_column df name); [|intros [= <-]; apply subframe_refl].
  destruct (getitem df name) as [col|]; simpl; [|discriminate].
  destruct (str_lower_eq col _) as [mask|]; simpl; [|discriminate].
  intros [= <-]. destruct (any mask); [apply subframe_select | apply subframe_refl].
Qed.

Lemma band_filter_subframe (features : gmap string pyval) (name : string)
    (tol : pyfloat) (df df' : DataFrame) :
  band_filter features name tol df = Ok df' -> subframe df' df.
Proof.
  unfold band_filter. destruct (features !! name) as [v|];
    [|intros [= <-]; apply subframe_refl].
  destruct (has_column df name); [|intros [= <-]; apply subframe_refl].
  destruct (getitem df name) as [col|]; simpl; [|discriminate].
  destruct (float v) as [x|]; simpl; [|discriminate].
  destruct (abs_diff_le col x tol) as [mask|]; simpl; [|discriminate].
  intros [= <-]. apply subframe_select.
Qed.

Lemma narrow_subframe (category : string) (features : gmap string pyval)
    (df df' : DataFrame) :
  narrow category features df = Ok df' -> subframe df' df.
Proof.
  unfold narrow.
  destruct (match_filter features "brand" df) as [d1|] eqn:E1; simpl; [|discriminate].
  apply match_filter_subframe in E1.
  repeat match goal with
         | |- context [String.eqb category ?c] => destruct (String.eqb category c)
         end.
  - destruct (band_filter features "storage" (Fin 128) d1) as [d2|] eqn:E2;
      simpl; [|discriminate].
    intros E3. apply band_filter_subframe in E2, E3.
    eauto using subframe_trans.
  - destruct (band_filter features "ram" (Fin 8) d1) as [d2|] eqn:E2;
      simpl; [|discriminate].
    intros E3. apply band_filter_subframe in E2, E3.
    eauto using subframe_trans.
  - intros E3. apply match_filter_subframe in E3. eauto using subframe_trans.
  - now intros [= <-].
Qed.

End MarketComparator.

(** *** Exact arithmetic on floats *)

Lemma fle_fin (a b : Q) : fle (Fin a) (Fin b) = true <-> (a <= b)%Q.
Proof. apply Qle_bool_iff. Qed.

Lemma flt_fin (a b : Q) : flt (Fin a) (Fin b) = true <-> (a < b)%Q.
Proof.
  unfold flt. rewrite negb_true_iff. split.
  - intros Hf. apply Qnot_le_lt. intros Hle.
    apply Qle_bool_iff in Hle. congruence.
  - intros Hlt. destruct (Qle_bool b a) eqn:E; [|reflexivity].
    apply Qle_bool_iff in E. exfalso. exact (Qlt_not_le _ _ Hlt E).
Qed.

(** *** MarketComparator *)


Lemma existsb_sublist {A} (f : A -> bool) (l1 l2 : list A) :
  sublist l1 l2 -> existsb f l1 = true -> existsb f l2 = true.
Proof.
  induction 1 as [|x l1 l2 _ IH|x l1 l2 _ IH]; simpl; [tauto| |].
  - destruct (f x); [reflexivity | exact IH].
  - intros Hl. rewrite (IH Hl). apply orb_true_r.
Qed.

Lemma price_mean_numeric (df : DataFrame) :
  dtype_of (columns df) "price" = Some Numeric ->
  price_mean df = Ok (nanmean (prices (rows df))).
Proof. intros Ht. unfold price_mean, getitem. now rewrite Ht. Qed.

(** A selection of rows cannot fail to average unless the whole table
    fails the same way. *)
Lemma price_mean_subframe_raise (df' df : DataFrame) (e : exn) :
  subframe df' df -> price_mean df' = Raise e -> price_mean df = Raise e.
Proof.
  intros [Hc Hr]. unfold price_mean, getitem. rewrite Hc.
  destruct (dtype_of (columns df) "price") as [[|]|]; simpl; try easy.
  destruct (holds_string (map (obj_cell "price") (rows df'))) eqn:E; [|discriminate].
  intros He. unfold holds_string in *.
  erewrite existsb_sublist; [exact He | | exact E].
  now apply (fmap_sublist (obj_cell "price")).
Qed.

Lemma empty_false_rows (df : DataFrame) :
  empty df = false -> rows df <> [] /\ columns df <> [].
Proof. unfold empty. destruct (rows df), (columns df); easy. Qed.

Lemma empty_subframe (df' df : DataFrame) :
  subframe df' df -> empty df = false ->
  empty df' = match rows df' with [] => true | _ => false end.
Proof.
  intros [Hc _] He. apply empty_false_rows in He as [_ Hcols].
  unfold empty. rewrite Hc. destruct (rows df'), (columns df); easy.
Qed.

Section MarketAverage.
Context `{FloatText}.
Variable category : string.
Variable features : gmap string pyval.
Variable market_data : gmap string DataFrame.

Lemma market_average_on (full : DataFrame) :
  market_data !! category = Some full ->
  empty full = false ->
  calculate_market_average category features market_data
  = try_except (market_average_body category features full) (price_mean full).
Proof. intros Hf He. unfold calculate_market_average. now rewrite Hf, He. Qed.


(** The filters on the other attributes do not read the brand. *)
Lemma band_filter_without_brand (name : string) (tol : pyfloat) (df : DataFrame) :
  name <> "brand" ->
  band_filter (delete "brand" features) name tol df = band_filter features name tol df.
Proof.
  intros Hn. unfold band_filter. now rewrite lookup_delete_ne.
Qed.

Lemma match_filter_without_brand (name : string) (df : DataFrame) :
  name <> "brand" ->
  match_filter (delete "brand" features) name df = match_filter features name df.
Proof.
  intros Hn. unfold match_filter. now rewrite lookup_delete_ne.
Qed.

Lemma narrow_without_brand (df : DataFrame) :
  narrow category (delete "brand" features) df
  = (if String.eqb category "phones" then
       df <- band_filter features "storage" (Fin 128) df;;
       band_filter features "ram" (Fin 4) df
     else if String.eqb category "laptops" then
       df <- band_filter features "ram" (Fin 8) df;;
       band_filter features "storage" (Fin 256) df
     else if String.eqb category "furniture" then
       match_filter features "material" df
     else Ok df).
Proof.
  unfold narrow, match_filter at 1. rewrite lookup_delete_eq. cbn [bind].
  repeat match goal with
         | |- context [String.eqb category ?c] => destruct (String.eqb category c)
         end;
    rewrite ?band_filter_without_brand, ?match_filter_without_brand by discriminate;
    try reflexivity.
  - destruct (band_filter features "storage" (Fin 128) df); [|reflexivity].
    cbn [bind]. now rewrite band_filter_without_brand.
  - destruct (band_filter features "ram" (Fin 8) df); [|reflexivity].
    cbn [bind]. now rewrite band_filter_without_brand.
Qed.

Lemma brand_filtered_rows (b : pyval) (df : DataFrame) :
  rows df <> [] -> rows (brand_filtered b df) <> [].
Proof.
  intros Hne. unfold brand_filtered.
  destruct (List.filter (text_matches "brand" b) (rows df)) eqn:F; [exact Hne|].
  unfold restrict. simpl. now rewrite F.
Qed.

Lemma market_average_body_from_full (feats : gmap string pyval) (full : DataFrame) :
  market_average_body category feats full = narrowed_from category feats full full.
Proof. reflexivity. Qed.

(** C5 (amended). Let the features supply a brand [b] and let the
    category's dataset be present and non-empty.
    When its brand column is text, the brand step yields the rows whose
    brand is [b] up to letter case if there is one, and the dataset
    itself if there is none ([brand_filtered]); that set has a row, and
    the result of [calculate_market_average] is that of the later steps
    run on that set without a brand (restarts and the handler still
    using the whole dataset).  With no matching row the result is
    therefore the one obtained without a brand.
    When the brand column is numeric (a code, or blank throughout), the
    brand step fails, the later narrowing is not run, and the result is
    the mean price of the whole dataset. *)
Theorem brand_step_in_market_average (full : DataFrame) (b : pyval) :
  market_data !! category = Some full ->
  empty full = false ->
  features !! "brand" = Some b ->
  (dtype_of (columns full) "brand" = Some Object ->
     match_filter features "brand" full = Ok (brand_filtered b full)
     /\ rows (brand_filtered b full) <> []
     /\ calculate_market_average category features market_data
        = try_except
            (narrowed_from category (delete "brand" features)
                           (brand_filtered b full) full)
            (price_mean full)
     /\ (List.filter (text_matches "brand" b) (rows full) = [] ->
         calculate_market_average category features market_data
         = calculate_market_average category (delete "brand" features) market_data))
  /\ (dtype_of (columns full) "brand" = Some Numeric ->
      match_filter features "brand" full = Raise AttributeError
      /\ calculate_market_average category features market_data = price_mean full).
Proof.
  intros Hf He Hb. split.
  - intros Ht.
    pose proof (match_filter_object _ _ _ _ Hb Ht) as Hm.
    fold (brand_filtered b full) in Hm.
    assert (Hcalc : calculate_market_average category features market_data
                    = try_except
                        (narrowed_from category (delete "brand" features)
                                       (brand_filtered b full) full)
                        (price_mean full)).
    { rewrite (market_average_on full Hf He). f_equal.
      unfold market_average_body, narrowed_from.
      rewrite narrow_without_brand. unfold narrow. rewrite Hm. cbn [bind].
      now rewrite band_filter_without_brand by discriminate. }
    split; [exact Hm|]. split; [apply brand_filtered_rows, (empty_false_rows _ He)|].
    split; [exact Hcalc|].
    intros Hnone. rewrite Hcalc. unfold brand_filtered. rewrite Hnone.
    unfold calculate_market_average. rewrite Hf, He.
    now rewrite market_average_body_from_full.
  - intros Ht.
    assert (Hm : match_filter features "brand" full = Raise AttributeError).
    { unfold match_filter. rewrite Hb, (has_column_dtype _ _ _ Ht).
      unfold getitem. now rewrite Ht. }
    split; [exact Hm|].
    rewrite (market_average_on full Hf He).
    unfold market_average_body, narrow. now rewrite Hm.
Qed.


(** The [try] block, when it returns, returns the mean price of a
    non-empty selection of the rows. *)
Lemma market_average_body_mean (full : DataFrame) (x : pyfloat) :
  empty full = false ->
  dtype_of (columns full) "price" = Some Numeric ->
  market_average_body category features full = Ok x ->
  exists kept, kept <> [] /\ sublist kept (rows full) /\ x = nanmean (prices kept).
Proof.
  intros He Hp. unfold market_average_body.
  destruct (narrow category features full) as [df|] eqn:N; simpl; [|discriminate].
  apply narrow_subframe in N.
  set (step := if Nat.ltb (len df) 5 then _ else _).
  destruct step as [kept|] eqn:S; simpl; [|discriminate].
  assert (Hsub : subframe kept full).
  { unfold step in S. destruct (Nat.ltb (len df) 5).
    - now apply band_filter_subframe in S.
    - now injection S as <-. }
  rewrite (empty_subframe _ _ Hsub He).
  destruct (rows kept) as [|r rs] eqn:R.
  - rewrite (price_mean_numeric _ Hp). intros [= <-].
    exists (rows full). split; [apply (empty_false_rows _ He)|]. split; reflexivity.
  - destruct Hsub as [Hc Hr]. rewrite price_mean_numeric by (now rewrite Hc).
    intros [= <-]. exists (rows kept). rewrite R in *. split; [discriminate|].
    split; [exact Hr | reflexivity].
Qed.

Lemma market_average_mean (full : DataFrame) :
  market_data !! category = Some full ->
  empty full = false ->
  dtype_of (columns full) "price" = Some Numeric ->
  exists kept, kept <> [] /\ sublist kept (rows full)
    /\ calculate_market_average category features market_data
       = Ok (nanmean (prices kept)).
Proof.
  intros Hf He Hp. rewrite (market_average_on full Hf He).
  destruct (market_average_body category features full) as [x|e] eqn:B; simpl.
  - destruct (market_average_body_mean full x He Hp B) as (kept & ? & ? & ->).
    eauto.
  - rewrite (price_mean_numeric _ Hp).
    exists (rows full). split; [apply (empty_false_rows _ He)|]. split; reflexivity.
Qed.

Lemma market_average_fallback :
  market_data !! category = None
  \/ (exists full, market_data !! category = Some full /\ empty full = true) ->
  calculate_market_average category features market_data = Ok (Fin 500).
Proof.
  unfold calculate_market_average. intros [-> | (full & -> & ->)]; reflexivity.
Qed.

(** Whatever the dataset holds, the outcome of the comparison over a
    present, non-empty dataset is the outcome of averaging the price
    column over a non-empty selection of its rows. *)
Lemma market_average_selects (full : DataFrame) :
  market_data !! category = Some full ->
  empty full = false ->
  exists kept, kept <> [] /\ sublist kept (rows full)
    /\ calculate_market_average category features market_data
       = price_mean {| columns := columns full; rows := kept |}.
Proof.
  intros Hf He. rewrite (market_average_on full Hf He).
  assert (Hfull : price_mean full
                  = price_mean {| columns := columns full; rows := rows full |})
    by (now destruct full).
  destruct (market_average_body category features full) as [x|e] eqn:B;
    cbn [try_except].
  2: { exists (rows full). split; [apply (empty_false_rows _ He)|].
       split; [reflexivity | exact Hfull]. }
  revert B. unfold market_average_body.
  destruct (narrow category features full) as [df|] eqn:N; cbn [bind]; [|discriminate].
  apply narrow_subframe in N.
  set (step := if Nat.ltb (len df) 5 then _ else _).
  destruct step as [kept|] eqn:S; cbn [bind]; [|discriminate].
  assert (Hsub : subframe kept full).
  { unfold step in S. destruct (Nat.ltb (len df) 5).
    - now apply band_filter_subframe in S.
    - now injection S as <-. }
  rewrite (empty_subframe _ _ Hsub He).
  destruct (rows kept) as [|r rs] eqn:R; intros B.
  - exists (rows full). split; [apply (empty_false_rows _ He)|].
    split; [reflexivity | now rewrite <- Hfull].
  - exists (rows kept). rewrite R. split; [discriminate|].
    destruct Hsub as [Hc Hr]. split; [now rewrite <- R|].
    rewrite <- B, <- R, <- Hc. now destruct kept.
Qed.

(** C3. [calculate_market_average] returns 500.0 when the dataset is
    missing or empty, and a failure inside its [try] block is handed to
    the handler, which computes the mean price of the unfiltered
    dataset.  That computation is itself unguarded: over a dataset
    without a price column the call raises KeyError, whatever the
    features; and whenever the call raises, the error is the one that
    averaging the price column of the whole dataset raises. *)
Theorem handler_failure_reaches_caller :
  (market_data !! category = None
   \/ (exists full, market_data !! category = Some full /\ empty full = true) ->
   calculate_market_average category features market_data = Ok (Fin 500))
  /\ (forall full e,
        market_data !! category = Some full ->
        empty full = false ->
        market_average_body category features full = Raise e ->
        calculate_market_average category features market_data = price_mean full)
  /\ (forall full,
        market_data !! category = Some full ->
        empty full = false ->
        dtype_of (columns full) "price" = None ->
        calculate_market_average category features market_data = Raise KeyError)
  /\ (forall e,
        calculate_market_average category features market_data = Raise e ->
        exists full, market_data !! category = Some full
                     /\ empty full = false
                     /\ price_mean full = Raise e).
Proof.
  split; [apply market_average_fallback|]. split; [|split].
  - intros full e Hf He Hb. now rewrite (market_average_on full Hf He), Hb.
  - intros full Hf He Hp.
    destruct (market_average_selects full Hf He) as (kept & _ & _ & ->).
    unfold price_mean, getitem. cbn [columns]. now rewrite Hp.
  - intros e Hr. destruct (market_data !! category) as [full|] eqn:Hf.
    + destruct (empty full) eqn:He.
      * rewrite market_average_fallback in Hr by eauto. discriminate Hr.
      * exists full. split; [reflexivity|]. split; [exact He|].
        destruct (market_average_selects full Hf He) as (kept & _ & Hsub & Hk).
        rewrite Hk in Hr.
        apply (price_mean_subframe_raise
                 {| columns := columns full; rows := kept |} full e);
          [split; [reflexivity | exact Hsub] | exact Hr].
    + rewrite market_average_fallback in Hr by now left. discriminate Hr.
Qed.

(** Over datasets that carry a numeric price column the call always
    returns: with the dataset missing or empty 500.0, and after a
    failure inside the filtering or averaging the mean price of the
    unfiltered dataset. *)
Lemma calculate_market_average_never_raises :
  (forall full, market_data !! category = Some full -> empty full = false ->
                dtype_of (columns full) "price" = Some Numeric) ->
  (exists x, calculate_market_average category features market_data = Ok x)
  /\ (market_data !! category = None
      \/ (exists full, market_data !! category = Some full /\ empty full = true) ->
      calculate_market_average category features market_data = Ok (Fin 500))
  /\ (forall full e,
        market_data !! category = Some full ->
        empty full = false ->
        market_average_body category features full = Raise e ->
        calculate_market_average category features market_data
        = Ok (nanmean (prices (rows full)))).
Proof.
  intros Hprice. split; [|split].
  - destruct (market_data !! category) as [full|] eqn:Hf.
    + destruct (empty full) eqn:He.
      * exists (Fin 500). apply market_average_fallback. eauto.
      * destruct (market_average_mean full Hf He (Hprice full eq_refl He))
          as (kept & _ & _ & Hk).
        eauto.
    + exists (Fin 500). apply market_average_fallback. now left.
  - apply market_average_fallback.
  - intros full e Hf He Hb. rewrite (market_average_on full Hf He), Hb. simpl.
    apply price_mean_numeric, Hprice; assumption.
Qed.


End MarketAverage.

(** *** Rounding and clamping *)

Lemma round_half_even_between (a b : Z) (x : Q) :
  (inject_Z a <= x)%Q -> (x <= inject_Z b)%Q ->
  a <= round_half_even x <= b.
Proof.
  intros Ha Hb. unfold round_half_even.
  pose proof (Qfloor_le x) as Hfl.
  pose proof (Qlt_floor x) as Hfu.
  assert (Haf : a <= Qfloor x).
  { rewrite <- (Qfloor_Z a). now apply Qfloor_resp_le. }
  assert (Hfb : Qfloor x <= b).
  { rewrite <- (Qfloor_Z b). now apply Qfloor_resp_le. }
  set (f := Qfloor x) in *.
  assert (Hup : (inject_Z f < x)%Q -> f + 1 <= b).
  { intros Hlt. assert (Hfb' : (inject_Z f < inject_Z b)%Q) by lra.
    rewrite <- Zlt_Qlt in Hfb'. lia. }
  destruct (Qle_bool (x - inject_Z f) (1 # 2)) eqn:E1.
  - destruct (Qeq_bool (x - inject_Z f) (1 # 2)) eqn:E2.
    + apply Qeq_bool_iff in E2.
      destruct (Z.even f); [lia|]. split; [lia|]. apply Hup. lra.
    + lia.
  - split; [lia|]. apply Hup.
    destruct (Qlt_le_dec (inject_Z f) x) as [Hlt|Hle]; [exact Hlt|].
    exfalso. assert (Hq : (x - inject_Z f <= 1 # 2)%Q) by lra.
    apply Qle_bool_iff in Hq. congruence.
Qed.

(** Rounding to two decimals keeps a value within [[3/5, 19/20]]. *)
Lemma round_nd_2_between (q : Q) :
  (3 # 5 <= q <= 19 # 20)%Q ->
  exists c, round_nd (Fin q) 2 = Fin c /\ (3 # 5 <= c <= 19 # 20)%Q.
Proof.
  intros [Hlo Hhi]. unfold round_nd.
  change (inject_Z (10 ^ Z.of_nat 2)) with (100 # 1)%Q.
  destruct (round_half_even_between 60 95 (q * (100 # 1))) as [H60 H95].
  - change (inject_Z 60) with (60 # 1)%Q. lra.
  - change (inject_Z 95) with (95 # 1)%Q. lra.
  - eexists. split; [reflexivity|]. rewrite Qred_correct.
    set (z := round_half_even (q * (100 # 1))) in *.
    assert (H1 : (inject_Z 60 <= inject_Z z)%Q) by (rewrite <- Zle_Qle; exact H60).
    assert (H2 : (inject_Z z <= inject_Z 95)%Q) by (rewrite <- Zle_Qle; exact H95).
    change (inject_Z 60) with (60 # 1)%Q in H1.
    change (inject_Z 95) with (95 # 1)%Q in H2.
    split.
    + apply Qle_shift_div_l; lra.
    + apply Qle_shift_div_r; lra.
Qed.

Lemma clamp_between (q : Q) : (3 # 5 <= clamp q <= 19 # 20)%Q.
Proof.
  unfold clamp. destruct (Qlt_le_dec (3 # 5) q); [|lra].
  destruct (Qlt_le_dec q (19 # 20)); lra.
Qed.

(** [max(0.6, min(0.95, x))] on floats. *)
Lemma clamp_float (x : pyfloat) :
  exists c, fmax (Fin (3 # 5)) (fmin (Fin (19 # 20)) x) = Fin c
    /\ (3 # 5 <= c <= 19 # 20)%Q
    /\ forall q, x = Fin q -> c = clamp q.
Proof.
  destruct x as [q| | |].
  - exists (clamp q). split; [|split; [apply clamp_between | now intros ? [= ->]]].
    unfold fmin, fmax, fgt, clamp.
    destruct (Qlt_le_dec q (19 # 20)) as [H1|H1].
    + rewrite (proj2 (flt_fin _ _) H1).
      destruct (Qlt_le_dec (3 # 5) q) as [H2|H2].
      * now rewrite (proj2 (flt_fin _ _) H2).
      * destruct (flt (Fin (3 # 5)) (Fin q)) eqn:E; [|reflexivity].
        apply flt_fin in E. lra.
    + destruct (flt (Fin q) (Fin (19 # 20))) eqn:E.
      * apply flt_fin in E. lra.
      * destruct (Qlt_le_dec (3 # 5) q) as [H2|H2]; [reflexivity | lra].
  - exists (19 # 20)%Q. split; [reflexivity|]. split; [lra | discriminate].
  - exists (3 # 5)%Q. split; [reflexivity|]. split; [lra | discriminate].
  - exists (19 # 20)%Q. split; [reflexivity|]. split; [lra | discriminate].
Qed.

Lemma backend_confidence_of_number `{FloatText} (n : number) (q : Q) :
  float_of_number n = Fin q ->
  BackendApp.confidence_of (VNum n) = Ok (Fin (clamp q)).
Proof.
  intros Hq. unfold BackendApp.confidence_of. simpl. rewrite Hq.
  destruct (clamp_float (Fin q)) as (c & -> & _ & Hc). now rewrite (Hc q eq_refl).
Qed.

Lemma app_confidence_of_number (n : number) (q : Q) :
  float_of_number n = Fin q ->
  App.confidence_of (VNum n) = Ok (VNum (Float (Fin (clamp q)))).
Proof.
  intros Hq. unfold App.confidence_of, min2, max2, lt. simpl. rewrite Hq. simpl.
  unfold clamp.
  destruct (Qlt_le_dec q (19 # 20)) as [H1|H1].
  - rewrite (proj2 (flt_fin _ _) H1). simpl. rewrite Hq.
    destruct (Qlt_le_dec (3 # 5) q) as [H2|H2].
    + rewrite (proj2 (flt_fin _ _) H2).
      destruct n as [z|x]; simpl in Hq.
      * exfalso. injection Hq as <-.
        assert (Hz : (inject_Z 0 < inject_Z z)%Q) by (change (inject_Z 0) with 0%Q; lra).
        assert (Hz' : (inject_Z z < inject_Z 1)%Q) by (change (inject_Z 1) with 1%Q; lra).
        rewrite <- Zlt_Qlt in Hz, Hz'. lia.
      * now subst.
    + destruct (flt (Fin (3 # 5)) (Fin q)) eqn:E; [|reflexivity].
      apply flt_fin in E. lra.
  - destruct (flt (Fin q) (Fin (19 # 20))) eqn:E.
    + apply flt_fin in E. lra.
    + simpl. destruct (Qlt_le_dec (3 # 5) q) as [H2|H2]; [reflexivity | lra].
Qed.

(** *** PredictionService *)

Ltac bind_inv H :=
  repeat match type of H with
         | bind ?m _ = Ok _ =>
             let E := fresh "E" in
             destruct m eqn:E; cbn [bind] in H; [|discriminate H]
         end.

Lemma app_confidence_of_between (r2 v : pyval) :
  App.confidence_of r2 = Ok v ->
  exists c, v = VNum (Float (Fin c)) /\ (3 # 5 <= c <= 19 # 20)%Q.
Proof.
  destruct r2 as [|b|n|s]; try discriminate.
  - destruct b; intros [= <-]; eexists; (split; [reflexivity | lra]).
  - destruct (float_of_number n) as [q| | |] eqn:Hn.
    + rewrite (app_confidence_of_number n q Hn). intros [= <-].
      eexists. split; [reflexivity | apply clamp_between].
    + destruct n as [z|x]; [discriminate|]. simpl in Hn. subst x.
      intros [= <-]. eexists. split; [reflexivity | lra].
    + destruct n as [z|x]; [discriminate|]. simpl in Hn. subst x.
      intros [= <-]. eexists. split; [reflexivity | lra].
    + destruct n as [z|x]; [discriminate|]. simpl in Hn. subst x.
      intros [= <-]. eexists. split; [reflexivity | lra].
Qed.

Lemma backend_confidence_of_between `{FloatText} (r2 : pyval) (x : pyfloat) :
  BackendApp.confidence_of r2 = Ok x ->
  exists c, x = Fin c /\ (3 # 5 <= c <= 19 # 20)%Q.
Proof.
  unfold BackendApp.confidence_of. intros Hx. bind_inv Hx. injection Hx as <-.
  destruct (clamp_float a) as (c & -> & Hc & _). eauto.
Qed.

Lemma fmax_eps_nonzero (avg : pyfloat) :
  is_zero (fmax avg (Fin (1 # 1000000))) = false.
Proof.
  unfold fmax, fgt. destruct (flt avg (Fin (1 # 1000000))) eqn:E; [reflexivity|].
  destruct avg as [q| | |]; try reflexivity.
  simpl. destruct (Qeq_bool q 0) eqn:Z; [|reflexivity].
  apply Qeq_bool_iff in Z.
  assert (Hlt : (q < 1 # 1000000)%Q) by (rewrite Z; reflexivity).
  apply flt_fin in Hlt. congruence.
Qed.

Lemma or_one_nonzero (avg : pyfloat) :
  is_zero (if truthy avg then avg else Fin 1) = false.
Proof.
  unfold truthy. destruct (is_zero avg) eqn:Z; simpl; [reflexivity | exact Z].
Qed.

Lemma above_eps (avg : pyfloat) :
  fle (Fin (1 # 1000000)) avg = true ->
  truthy avg = true /\ fmax avg (Fin (1 # 1000000)) = avg.
Proof.
  intros Hle. destruct avg as [q| | |]; try discriminate; [|split; reflexivity].
  apply fle_fin in Hle. split.
  - unfold truthy. simpl. destruct (Qeq_bool q 0) eqn:Z; [|reflexivity].
    apply Qeq_bool_iff in Z. lra.
  - unfold fmax, fgt. destruct (flt (Fin q) (Fin (1 # 1000000))) eqn:E; [|reflexivity].
    apply flt_fin in E. lra.
Qed.

Section PredictionService.
Context `{FloatText} {Model : Type} `{Predictor Model}.
Variable models : gmap string Model.
Variable schemas : gmap string Schema.
Variable market_data : gmap string DataFrame.

(** The backend answers 404 as soon as the model or the schema of the
    category is absent. *)
Lemma backend_predict_not_found (category : string) (body : Body) :
  models !! category = None \/ schemas !! category = None ->
  BackendApp.predict models schemas market_data category body
  = NotFound "Category not found".
Proof. unfold BackendApp.predict. intros [-> | ->]; simpl; [|rewrite orb_true_r]; reflexivity. Qed.

Lemma app_predict_not_found (category : string) (body : Body) :
  models !! category = None ->
  App.predict models schemas market_data category body
  = NotFound "Category not found".
Proof. unfold App.predict. now intros ->. Qed.

(** With the model present and the schema absent, [app.py] goes on
    with the empty schema and never answers 404. *)
Lemma app_predict_absent_schema (category : string) (body : Body) (m : Model) :
  models !! category = Some m ->
  schemas !! category = None ->
  forall msg, App.predict models schemas market_data category body <> NotFound msg.
Proof.
  intros Hm _ msg. unfold App.predict. rewrite Hm. simpl.
  now destruct (App.predict_body _ _ _ _ _).
Qed.

Lemma backend_predict_confidence (category : string) (body : Body)
    (out : BackendApp.Out) :
  BackendApp.predict models schemas market_data category body = Json out ->
  exists c, BackendApp.confidence out = Fin c /\ (3 # 5 <= c <= 19 # 20)%Q.
Proof.
  unfold BackendApp.predict. destruct (_ || _)%bool; [discriminate|].
  destruct (BackendApp.predict_body _ _ _ _ _) as [o|] eqn:B; [|discriminate].
  intros [= ->]. unfold BackendApp.predict_body in B. bind_inv B.
  injection B as <-. simpl.
  match goal with
  | E : BackendApp.confidence_of _ = Ok ?x |- _ =>
      destruct (backend_confidence_of_between _ _ E) as (c & -> & Hc)
  end.
  now apply round_nd_2_between.
Qed.

Lemma app_predict_confidence (category : string) (body : Body) (out : App.Resp) :
  App.predict models schemas market_data category body = Json out ->
  exists c, App.confidence out = VNum (Float (Fin c)) /\ (3 # 5 <= c <= 19 # 20)%Q.
Proof.
  unfold App.predict. destruct (negb _); [discriminate|].
  destruct (App.predict_body _ _ _ _ _) as [o|] eqn:B; [|discriminate].
  intros [= ->]. unfold App.predict_body in B. bind_inv B.
  injection B as <-. simpl.
  match goal with
  | E : App.confidence_of _ = Ok ?x |- _ =>
      destruct (app_confidence_of_between _ _ E) as (c & -> & Hc)
  end.
  match goal with
  | E : round _ 2 = Ok ?x |- _ => injection E as <-
  end.
  destruct (round_nd_2_between c Hc) as (c' & -> & Hc'). eauto.
Qed.

(** The confidence of a backend reply is the rounded clamp of the
    schema's score. *)
Lemma backend_predict_confidence_value (category : string) (body : Body)
    (out : BackendApp.Out) (schema : Schema) (n : number) (q : Q) :
  BackendApp.predict models schemas market_data category body = Json out ->
  schemas !! category = Some schema ->
  r2_score_of schema = VNum n ->
  float_of_number n = Fin q ->
  BackendApp.confidence out = round_nd (Fin (clamp q)) 2.
Proof.
  unfold BackendApp.predict. destruct (_ || _)%bool; [discriminate|].
  destruct (BackendApp.predict_body _ _ _ _ _) as [o|] eqn:B; [|discriminate].
  intros [= ->] Hs Hr Hq. unfold BackendApp.predict_body in B.
  unfold dict_getitem in B. rewrite Hs in B. bind_inv B.
  injection B as <-. simpl.
  match goal with
  | E : BackendApp.confidence_of _ = Ok _ |- _ =>
      unfold r2_score_of in Hr; rewrite Hr in E;
      rewrite (backend_confidence_of_number n q Hq) in E; injection E as <-
  end.
  reflexivity.
Qed.

Lemma app_predict_confidence_value (category : string) (body : Body)
    (out : App.Resp) (n : number) (q : Q) :
  App.predict models schemas market_data category body = Json out ->
  r2_score_of (default empty_schema (schemas !! category)) = VNum n ->
  float_of_number n = Fin q ->
  App.confidence out = VNum (Float (round_nd (Fin (clamp q)) 2)).
Proof.
  unfold App.predict. destruct (negb _); [discriminate|].
  destruct (App.predict_body _ _ _ _ _) as [o|] eqn:B; [|discriminate].
  intros [= ->] Hr Hq. unfold App.predict_body in B. bind_inv B.
  injection B as <-. simpl.
  match goal with
  | E : App.confidence_of _ = Ok _ |- _ =>
      unfold r2_score_of in Hr; rewrite Hr in E;
      rewrite (app_confidence_of_number n q Hq) in E; injection E as <-
  end.
  match goal with
  | E : round _ 2 = Ok ?x |- _ => injection E as <-
  end.
  reflexivity.
Qed.

End PredictionService.

(** C7. In both [predict] handlers the confidence of the result is the
    category's [r2_score] clamped into [[0.6, 0.95]] (shown with two
    decimals, like every number of the result): it is at least 0.6 and
    at most 0.95 for every numeric [r2_score], also outside [[0, 1]];
    -5 gives 0.6 and 1.2 gives 0.95. *)
Theorem confidence_within_bounds `{FloatText} {Model : Type} `{Predictor Model} :
  (forall models schemas market_data category body out,
      BackendApp.predict models schemas market_data category body = Json out ->
      (exists c, BackendApp.confidence out = Fin c /\ (3 # 5 <= c <= 19 # 20)%Q)
      /\ forall schema n q,
           schemas !! category = Some schema ->
           r2_score_of schema = VNum n ->
           float_of_number n = Fin q ->
           BackendApp.confidence out = round_nd (Fin (clamp q)) 2)
  /\ (forall models schemas market_data category body out,
        App.predict models schemas market_data category body = Json out ->
        (exists c, App.confidence out = VNum (Float (Fin c))
                   /\ (3 # 5 <= c <= 19 # 20)%Q)
        /\ forall n q,
             r2_score_of (default empty_schema (schemas !! category)) = VNum n ->
             float_of_number n = Fin q ->
             App.confidence out = VNum (Float (round_nd (Fin (clamp q)) 2)))
  /\ (forall n q, float_of_number n = Fin q ->
        BackendApp.confidence_of (VNum n) = Ok (Fin (clamp q))
        /\ App.confidence_of (VNum n) = Ok (VNum (Float (Fin (clamp q))))
        /\ (3 # 5 <= clamp q <= 19 # 20)%Q)
  /\ BackendApp.confidence_of (VNum (Int (-5))) = Ok (Fin (3 # 5))
  /\ BackendApp.confidence_of (VNum (Float (Fin (6 # 5)))) = Ok (Fin (19 # 20))
  /\ App.confidence_of (VNum (Int (-5))) = Ok (VNum (Float (Fin (3 # 5))))
  /\ App.confidence_of (VNum (Float (Fin (6 # 5)))) = Ok (VNum (Float (Fin (19 # 20)))).
Proof.
  split.
  { intros models schemas md category body out Hout. split.
    - eapply backend_predict_confidence; eauto.
    - intros schema n q Hs Hr Hq.
      exact (backend_predict_confidence_value _ _ _ _ _ _ _ _ _ Hout Hs Hr Hq). }
  split.
  { intros models schemas md category body out Hout. split.
    - eapply app_predict_confidence; eauto.
    - intros n q Hr Hq.
      exact (app_predict_confidence_value _ _ _ _ _ _ _ _ Hout Hr Hq). }
  split.
  { intros n q Hq. split; [now apply backend_confidence_of_number|].
    split; [now apply app_confidence_of_number | apply clamp_between]. }
  repeat split; reflexivity.
Qed.

(** C8 (amended). The percentage of [app.py] is
    [|predicted - average| / max(average, 1e-6) * 100] rounded to one
    decimal, for every predicted price and market average.  The
    percentage of the backend divides by the average itself, or by 1 when
    the average is zero, and rounds to two decimals; it agrees with the
    formula (two decimals) whenever the average is at least 1e-6.
    Neither raises a division error, also for a market average of 0. *)
Theorem percentage_entries :
  (forall y avg, App.percentage_entry y avg = Ok (percentage_formula y avg 1))
  /\ (forall y avg,
        BackendApp.percentage_entry y avg
        = Ok (round_nd (fmul (fdiv_nz (fabs (fsub y avg))
                                      (if is_zero avg then Fin 1 else avg))
                             (Fin 100)) 2))
  /\ (forall y avg, fle (Fin (1 # 1000000)) avg = true ->
        BackendApp.percentage_entry y avg = Ok (percentage_formula y avg 2))
  /\ (forall y, is_ok (App.percentage_entry y (Fin 0)) = true
                /\ is_ok (BackendApp.percentage_entry y (Fin 0)) = true).
Proof.
  assert (Happ : forall y avg,
             App.percentage_entry y avg = Ok (percentage_formula y avg 1)).
  { intros y avg. unfold App.percentage_entry, truediv.
    now rewrite fmax_eps_nonzero. }
  assert (Hback : forall y avg,
             BackendApp.percentage_entry y avg
             = Ok (round_nd (fmul (fdiv_nz (fabs (fsub y avg))
                                           (if is_zero avg then Fin 1 else avg))
                                  (Fin 100)) 2)).
  { intros y avg. unfold BackendApp.percentage_entry, truediv.
    rewrite or_one_nonzero. unfold truthy. now destruct (is_zero avg). }
  split; [exact Happ|]. split; [exact Hback|]. split.
  - intros y avg Hle. destruct (above_eps avg Hle) as [Ht Hm].
    unfold BackendApp.percentage_entry, truediv, percentage_formula.
    rewrite or_one_nonzero, Ht, Hm. reflexivity.
  - intros y. now rewrite Happ, Hback.
Qed.

(** *** ArtifactLoader *)

Section ArtifactLoader.
Context {Model : Type} `{Decoders Model}.
Variable BASE_URL : string.
Variable network : nat -> string -> result Response.

(** A load always returns the caches as it leaves them. *)
Lemma load_returns_caches (p : Process Model) :
  fst (load_models_and_schemas BASE_URL network p)
  = cached (snd (load_models_and_schemas BASE_URL network p)).
Proof.
  unfold load_models_and_schemas.
  destruct (_ && _)%bool; [reflexivity|].
  now destruct (get_categories_from_github BASE_URL network p).
Qed.

(** With the three caches filled, a load touches nothing. *)
Lemma load_when_filled (p : Process Model) :
  (nonempty (_cached_models p) && nonempty (_cached_schemas p)
   && nonempty (_cached_data p))%bool = true ->
  load_models_and_schemas BASE_URL network p = (cached p, p).
Proof. unfold load_models_and_schemas. now intros ->. Qed.

(** C9 (amended). When the first call of [load_models_and_schemas]
    leaves the model, schema and data caches all non-empty, a second
    call returns the same three structures and leaves the process as it
    was: nothing more is requested from the network. *)
Theorem load_again_is_cached (p : Process Model) :
  (nonempty (_cached_models (snd (load_models_and_schemas BASE_URL network p)))
   && nonempty (_cached_schemas (snd (load_models_and_schemas BASE_URL network p)))
   && nonempty (_cached_data (snd (load_models_and_schemas BASE_URL network p))))%bool
  = true ->
  load_models_and_schemas BASE_URL network
    (snd (load_models_and_schemas BASE_URL network p))
  = load_models_and_schemas BASE_URL network p.
Proof.
  intros Hfilled. rewrite (load_when_filled _ Hfilled).
  rewrite <- load_returns_caches. now destruct (load_models_and_schemas _ _ p).
Qed.

End ArtifactLoader.

(** *** Concrete runs *)

Import DecimalText Samples.

(** C1, as stated, fails: for a mapping that supplies a text that is
    not a number under a plain numeric feature, [prepare_features]
    raises and returns no vector. *)
Lemma prepare_features_returns_no_vector :
  prepare_features {[ "ram" := VStr "eight" ]} ram_schema = Raise ValueError
  /\ ~ exists vec, prepare_features {[ "ram" := VStr "eight" ]} ram_schema = Ok vec.
Proof.
  split; [reflexivity|]. intros [vec Hvec]. vm_compute in Hvec. discriminate Hvec.
Qed.

(** C1 (amended), on the specification's phone example: the vector is
    [[6.0, 1]]. *)
Lemma prepare_features_spec_witness :
  exists vec,
    prepare_features phone_request phone_schema = Ok vec
    /\ length vec = length (feature_columns phone_schema)
    /\ Forall2 (feature_value phone_request phone_schema)
               (feature_columns phone_schema) vec.
Proof.
  apply prepare_features_spec.
  intros col v Hin Hplain Hv.
  apply elem_of_cons in Hin as [-> | Hin].
  - vm_compute in Hv. injection Hv as <-. eexists. reflexivity.
  - apply elem_of_cons in Hin as [-> | Hin].
    + exfalso. apply (Hplain "storage"). reflexivity.
    + exfalso. now apply elem_of_nil in Hin.
Defined.

Example phone_vector :
  prepare_features phone_request phone_schema = Ok [Float (Fin 6); Int 1].
Proof. reflexivity. Qed.

Example phone_vector_missing_storage :
  prepare_features {[ "ram" := VNum (Int 6) ]} phone_schema
  = Ok [Float (Fin 6); Int 0].
Proof. reflexivity. Qed.

Example rating_default : float_of_number (get_default_value "rating") = Fin 4.
Proof. reflexivity. Qed.

(** C4, as stated, fails: a supplied text that is not a number, or a
    JSON null, for a plain numeric feature makes [prepare_features]
    raise instead of taking the default. *)
Lemma prepare_features_raises_on_malformed :
  prepare_features {[ "ram" := VStr "abc" ]} phone_schema = Raise ValueError
  /\ prepare_features {[ "ram" := VNone ]} phone_schema = Raise TypeError.
Proof. split; reflexivity. Qed.

(** C4 (amended), on a request with every key missing. *)
Lemma prepare_features_returns_iff_witness :
  exists vec, prepare_features ∅ phone_schema = Ok vec.
Proof.
  apply (proj2 (prepare_features_returns_iff ∅ phone_schema)).
  intros col v _ _ Hv. vm_compute in Hv. discriminate Hv.
Defined.

(** C5, as stated, fails: the phone table has a brand column, of
    numbers; no row matches the supplied brand, yet the unfiltered set
    does not pass on to the storage narrowing.  The brand step raises,
    the result is the mean of all six prices, 1750, where the narrowing
    of the unfiltered set (the same request without its brand) gives
    300. *)
Lemma numeric_brand_column_skips_narrowing :
  has_column coded_phones "brand" = true
  /\ match_filter branded_request "brand" coded_phones = Raise AttributeError
  /\ calculate_market_average "phones" branded_request
       {[ "phones" := coded_phones ]} = Ok (Fin 1750)
  /\ price_mean coded_phones = Ok (Fin 1750)
  /\ calculate_market_average "phones" (delete "brand" branded_request)
       {[ "phones" := coded_phones ]} = Ok (Fin 300).
Proof. repeat split; vm_compute; reflexivity. Qed.

(** C5 (amended), on the furniture table: a brand that matches no row
    leaves the three rows in place, and the average is the one obtained
    without a brand. *)
Lemma brand_step_in_market_average_witness :
  match_filter {[ "brand" := VStr "Acme" ]} "brand" furniture = Ok furniture
  /\ calculate_market_average "furniture" {[ "brand" := VStr "Acme" ]}
       {[ "furniture" := furniture ]}
     = calculate_market_average "furniture" (delete "brand" {[ "brand" := VStr "Acme" ]})
         {[ "furniture" := furniture ]}.
Proof.
  destruct (brand_step_in_market_average "furniture" {[ "brand" := VStr "Acme" ]}
              {[ "furniture" := furniture ]} furniture (VStr "Acme"))
    as [Htext _].
  - reflexivity.
  - reflexivity.
  - reflexivity.
  - destruct Htext as (Hm & _ & _ & Hnone); [reflexivity|].
    split; [exact Hm | apply Hnone; reflexivity].
Defined.

Example brand_filter_case_insensitive :
  match_filter {[ "brand" := VStr "IKEA" ]} "brand" furniture = Ok furniture.
Proof. reflexivity. Qed.


Example rating_filter_after_restart :
  calculate_market_average "furniture"
    {[ "rating" := VNum (Float (Fin (9 # 2))) ]} {[ "furniture" := furniture ]}
  = Ok (Fin 200)
  /\ calculate_market_average "furniture"
       {[ "rating" := VNum (Int 1) ]} {[ "furniture" := furniture ]}
     = Ok (Fin 200).
Proof. split; reflexivity. Qed.

(** C3, on a loaded table without a price column: the call raises
    KeyError. *)
Lemma handler_failure_reaches_caller_witness :
  calculate_market_average "furniture" {[ "brand" := VStr "Ikea" ]}
    {[ "furniture" := unpriced ]} = Raise KeyError.
Proof.
  destruct (handler_failure_reaches_caller "furniture" {[ "brand" := VStr "Ikea" ]}
              {[ "furniture" := unpriced ]})
    as (_ & _ & Hkey & _).
  apply (Hkey unpriced); reflexivity.
Defined.

(** A price column of texts: averaging raises TypeError inside the
    [try] block and again in the handler. *)
Example worded_prices_raise :
  market_average_body "furniture" ∅ worded_prices = Raise TypeError
  /\ calculate_market_average "furniture" ∅ {[ "furniture" := worded_prices ]}
     = Raise TypeError.
Proof. split; reflexivity. Qed.

(** On a request whose rating cannot be coerced, over a table with a
    numeric price column: the failure is turned into the mean price of
    the whole table. *)
Lemma calculate_market_average_never_raises_witness :
  exists x,
    calculate_market_average "furniture" {[ "rating" := VStr "five" ]}
      {[ "furniture" := furniture ]} = Ok x.
Proof.
  apply (calculate_market_average_never_raises "furniture"
           {[ "rating" := VStr "five" ]} {[ "furniture" := furniture ]}).
  intros full Hfull _. vm_compute in Hfull. injection Hfull as <-. reflexivity.
Defined.

Example coercion_failure_gives_full_mean :
  market_average_body "furniture" {[ "rating" := VStr "five" ]} furniture
  = Raise ValueError
  /\ calculate_market_average "furniture" {[ "rating" := VStr "five" ]}
       {[ "furniture" := furniture ]} = Ok (Fin 200).
Proof. split; reflexivity. Qed.



Example furniture_mean_is_200 :
  calculate_market_average "furniture" {[ "brand" := VStr "ikea" ]}
    {[ "furniture" := furniture ]} = Ok (Fin 200).
Proof. reflexivity. Qed.

(** C6. With a model loaded for "phones" and no schema, the [predict]
    of [app.py] does not answer 404 "Category not found": it runs on the
    empty schema, hands the model an empty vector and answers 500; the
    backend's [predict] answers 404 on the same input. *)
Theorem app_predict_absent_schema_is_server_error :
  App.predict phone_models ∅ ∅ "phones" (Ok (Some phone_request))
  = ServerError ValueError
  /\ BackendApp.predict phone_models ∅ ∅ "phones" (Ok (Some phone_request))
     = NotFound "Category not found".
Proof. split; reflexivity. Qed.

(** C7, on a schema whose [r2_score] is -5: the confidence is 0.6. *)
Lemma confidence_within_bounds_witness :
  exists out,
    BackendApp.predict {[ "phones" := [1%Q] ]} {[ "phones" := ram_schema ]} ∅
      "phones" (Ok None) = Json out
    /\ BackendApp.confidence out = Fin (3 # 5)
    /\ exists c, BackendApp.confidence out = Fin c /\ (3 # 5 <= c <= 19 # 20)%Q.
Proof.
  eexists. split; [vm_compute; reflexivity|]. split; [reflexivity|].
  apply (proj1 (@confidence_within_bounds decimal_text Linear linear_predictor)
           {[ "phones" := [1%Q] ]} {[ "phones" := ram_schema ]} ∅
           "phones" (Ok None)).
  reflexivity.
Defined.

(** C8, as stated, fails for the backend: with a predicted price of 8
    and a market average of 0 its percentage is 800, not
    [8 / 1e-6 * 100] under either rounding. *)
Lemma backend_percentage_differs_at_zero_average :
  exists out,
    BackendApp.predict {[ "furniture" := [1%Q] ]} {[ "furniture" := ram_schema ]}
      {[ "furniture" := free_furniture ]} "furniture" (Ok None) = Json out
    /\ BackendApp.predicted_price out = Fin 8
    /\ BackendApp.market_average out = Fin 0
    /\ percentage (BackendApp.comparison out) = Fin 800
    /\ percentage_formula (Fin 8) (Fin 0) 1 = Fin 800000000
    /\ percentage_formula (Fin 8) (Fin 0) 2 = Fin 800000000
    /\ percentage (BackendApp.comparison out) <> percentage_formula (Fin 8) (Fin 0) 1
    /\ percentage (BackendApp.comparison out) <> percentage_formula (Fin 8) (Fin 0) 2.
Proof.
  eexists. split; [vm_compute; reflexivity|].
  repeat split; try reflexivity; intros Heq; vm_compute in Heq; discriminate Heq.
Qed.

(** C8 (amended), at a market average of 0 and a price of 8. *)
Lemma percentage_entries_witness :
  App.percentage_entry (Fin 8) (Fin 0) = Ok (Fin 800000000)
  /\ BackendApp.percentage_entry (Fin 8) (Fin 0) = Ok (Fin 800)
  /\ BackendApp.percentage_entry (Fin 8) (Fin 16) = Ok (Fin 50).
Proof.
  destruct percentage_entries as (Happ & Hback & Hagree & _).
  split; [rewrite Happ; reflexivity|].
  split; [rewrite Hback; reflexivity|].
  rewrite Hagree; reflexivity.
Defined.

(** C9, as stated, fails: after a first load from an unreachable host
    the caches are empty, and the second load requests the nine
    artifacts again. *)
Lemma load_again_refetches_when_unreachable :
  length (requested unreachable_once) = 10%nat
  /\ length (requested unreachable_twice) = 19%nat
  /\ load_models_and_schemas base_url unreachable unreachable_once
     <> (cached unreachable_once, unreachable_once).
Proof.
  split; [reflexivity|]. split; [reflexivity|].
  intros Heq. apply (f_equal (fun r => length (requested (snd r)))) in Heq.
  vm_compute in Heq. discriminate Heq.
Qed.

(** C9 (amended), on a host that serves every artifact. *)
Lemma load_again_is_cached_witness :
  load_models_and_schemas base_url serving served_once
  = load_models_and_schemas base_url serving (fresh Linear).
Proof.
  apply (load_again_is_cached base_url serving (fresh Linear)).
  reflexivity.
Defined.

(* ===================================================================== *)
(** ** Further properties of the code                                     *)
(* ===================================================================== *)

(** *** Category discovery *)

Lemma categories_of_listing_nonempty (files : json) (cats : list string) :
  categories_of_listing files = Ok cats -> cats <> [].
Proof.
  unfold categories_of_listing. destruct (rate_limited files).
  - now intros [= <-].
  - destruct (match files with JArray items => pkl_names items
                          | JObject _ | JString _ => Ok [] | _ => Raise TypeError end)
      as [names|]; simpl; [|discriminate].
    intros [= <-]. now destruct names.
Qed.

Lemma discovered_from_nonempty `{Decoders Model} (answer : result Response) :
  discovered_from answer <> [].
Proof.
  unfold discovered_from.
  destruct (resp <- answer;; _ <- raise_for_status resp;;
            files <- json_listing (content resp);; categories_of_listing files)
    as [cats|] eqn:E; [|discriminate].
  destruct answer as [resp|]; simpl in E; [|discriminate].
  destruct (raise_for_status resp); simpl in E; [|discriminate].
  destruct (json_listing (content resp)) as [files|]; simpl in E; [|discriminate].
  exact (categories_of_listing_nonempty _ _ E).
Qed.

(** A full stop-free base name survives the removal of [.pkl]. *)
Lemma replace_fuel_pkl (base : string) (fuel : nat) :
  dot_free base = true ->
  (String.length (base +:+ ".pkl") <= fuel)%nat ->
  replace_fuel fuel ".pkl" EmptyString (base +:+ ".pkl") = base.
Proof.
  revert fuel; induction base as [|c base IH]; intros fuel Hdot Hfuel.
  - destruct fuel as [|fuel]; [simpl in Hfuel; lia|].
    simpl. now destruct fuel.
  - simpl in Hdot. apply andb_prop in Hdot as [Hc Hdot].
    destruct fuel as [|fuel]; [simpl in Hfuel; lia|].
    change (String c base +:+ ".pkl") with (String c (base +:+ ".pkl")) in *.
    cbn [replace_fuel].
    assert (Hpre : String.prefix ".pkl" (String c (base +:+ ".pkl")) = false).
    { cbn [String.prefix]. destruct (Ascii.ascii_dec "." c) as [<-|Hne]; [discriminate Hc|].
      reflexivity. }
    rewrite Hpre. f_equal. apply IH; [exact Hdot|]. simpl in Hfuel. lia.
Qed.

Lemma replace_pkl (base : string) :
  dot_free base = true -> replace (base +:+ ".pkl") ".pkl" EmptyString = base.
Proof. intros Hdot. unfold replace. now apply replace_fuel_pkl. Qed.

Lemma pkl_names_entries (items : list json) (bases : list string) :
  Forall2 pkl_entry items bases ->
  Forall (fun b => dot_free b = true) bases ->
  pkl_names items = Ok bases.
Proof.
  induction 1 as [|item base items bases (o & -> & Hname) _ IH]; intros Hdot.
  - reflexivity.
  - apply Forall_cons in Hdot as [Hb Hdot].
    cbn [pkl_names]. rewrite Hname. cbn [default from_option id].
    rewrite (IH Hdot). cbn [bind].
    now rewrite endswith_app, (replace_pkl _ Hb).
Qed.

Section CategoryDiscovery.
Context {Model : Type} `{Decoders Model}.
Variable BASE_URL : string.
Variable network : nat -> string -> result Response.

Local Notation "'discover'" := (get_categories_from_github BASE_URL network).

Lemma discover_cached (p : Process Model) (c : string) (cs : list string) :
  _cached_categories p = Some (c :: cs) -> discover p = (c :: cs, p).
Proof. unfold get_categories_from_github. now intros ->. Qed.

Lemma discover_fresh (p : Process Model) :
  undiscovered p ->
  discover p =
    let cats := discovered_from (network (length (requested p)) (api_url BASE_URL)) in
    (cats, set_categories cats (snd (requests_get network (api_url BASE_URL) p))).
Proof.
  unfold get_categories_from_github. intros [-> | ->]; reflexivity.
Qed.

Lemma discover_cases (p : Process Model) :
  (exists c cs, _cached_categories p = Some (c :: cs)) \/ undiscovered p.
Proof.
  unfold undiscovered. destruct (_cached_categories p) as [[|c cs]|]; eauto.
Qed.

Lemma discovery_nonempty (p : Process Model) : fst (discover p) <> [].
Proof.
  destruct (discover_cases p) as [(c & cs & Hc) | Hu].
  - now rewrite (discover_cached p c cs Hc).
  - rewrite (discover_fresh p Hu). apply discovered_from_nonempty.
Qed.

(** X1. Category discovery always yields at least one category, sends
    at most one request (to the listing address), leaves the three
    artifact caches alone and remembers what it returns. *)
Theorem discovery_never_empty (p : Process Model) :
  fst (discover p) <> []
  /\ (requested (snd (discover p)) = requested p
      \/ requested (snd (discover p)) = requested p ++ [api_url BASE_URL])
  /\ cached (snd (discover p)) = cached p
  /\ _cached_categories (snd (discover p)) = Some (fst (discover p)).
Proof.
  destruct (discover_cases p) as [(c & cs & Hc) | Hu].
  - rewrite (discover_cached p c cs Hc). simpl. repeat split; auto; discriminate.
  - rewrite (discover_fresh p Hu). simpl. repeat split; auto.
    apply discovered_from_nonempty.
Qed.

(** X2. Category discovery is idempotent: once it has run, running it
    again returns the same list and changes nothing, so no second
    request is ever sent, whatever the first answer was. *)
Theorem discovery_runs_once (p : Process Model) :
  discover (snd (discover p)) = discover p.
Proof.
  destruct (discover_cases p) as [(c & cs & Hc) | Hu].
  - rewrite (discover_cached p c cs Hc). simpl. now apply discover_cached.
  - rewrite (discover_fresh p Hu). cbn zeta. cbn [snd].
    set (cats := discovered_from _).
    pose proof (discovered_from_nonempty
                  (network (length (requested p)) (api_url BASE_URL))) as Hne.
    fold cats in Hne. destruct cats as [|c cs] eqn:E; [congruence|].
    now rewrite (discover_cached _ c cs).
Qed.

(** X3. When the category list is not cached and the listing request
    raises, is answered with an error status, or carries a body that
    does not decode, or decodes to something other than a list, the
    fixed list phones, laptops, furniture is returned. *)
Theorem discovery_falls_back (p : Process Model) :
  undiscovered p ->
  (forall e, network (length (requested p)) (api_url BASE_URL) = Raise e ->
             fst (discover p) = default_categories)
  /\ (forall resp, network (length (requested p)) (api_url BASE_URL) = Ok resp ->
        ((400 <= status_code resp < 600)%nat ->
         fst (discover p) = default_categories)
        /\ (forall e, json_listing (content resp) = Raise e ->
                      fst (discover p) = default_categories)
        /\ (forall files, json_listing (content resp) = Ok files ->
                          (forall items, files <> JArray items) ->
                          fst (discover p) = default_categories)).
Proof.
  intros Hu. rewrite (discover_fresh p Hu). cbn zeta. cbn [fst].
  unfold discovered_from. split.
  - now intros e ->.
  - intros resp ->. cbn [bind]. split; [|split].
    + intros [Hlo Hhi]. unfold raise_for_status.
      apply Nat.leb_le in Hlo. apply Nat.ltb_lt in Hhi. now rewrite Hlo, Hhi.
    + intros e He. destruct (raise_for_status resp); [|reflexivity].
      cbn [bind]. now rewrite He.
    + intros files Hf Hnot. destruct (raise_for_status resp); [|reflexivity].
      cbn [bind]. rewrite Hf. cbn [bind]. unfold categories_of_listing.
      destruct (rate_limited files); [reflexivity|].
      destruct files; try reflexivity. now destruct (Hnot items).
Qed.

(** X4. When the listing is a directory whose entries are all named
    [base.pkl], with no other full stop in the name, discovery returns
    exactly these base names, in the order of the listing. *)
Theorem discovery_lists_models (p : Process Model) (resp : Response)
    (items : list json) (bases : list string) :
  undiscovered p ->
  network (length (requested p)) (api_url BASE_URL) = Ok resp ->
  raise_for_status resp = Ok tt ->
  json_listing (content resp) = Ok (JArray items) ->
  Forall2 pkl_entry items bases ->
  Forall (fun b => dot_free b = true) bases ->
  bases <> [] ->
  fst (discover p) = bases.
Proof.
  intros Hu Hnet Hst Hjs Hent Hdot Hne.
  rewrite (discover_fresh p Hu). cbn zeta. cbn [fst].
  unfold discovered_from. rewrite Hnet. cbn [bind]. rewrite Hst. cbn [bind].
  rewrite Hjs. cbn [bind]. unfold categories_of_listing. cbn [rate_limited].
  rewrite (pkl_names_entries _ _ Hent Hdot). cbn [bind].
  now destruct bases.
Qed.

End CategoryDiscovery.

(** *** Artifact loading *)

Section LoaderRuns.
Context {Model : Type} `{Decoders Model}.
Variable BASE_URL : string.
Variable network : nat -> string -> result Response.

Local Notation "'discover'" := (get_categories_from_github BASE_URL network).
Local Notation "'load'" := (load_models_and_schemas BASE_URL network).
Local Notation "'load_one'" := (load_category BASE_URL network).

Lemma load_unfilled (p : Process Model) :
  filled p = false ->
  load p = (cached (foldl load_one (snd (discover p)) (fst (discover p))),
            foldl load_one (snd (discover p)) (fst (discover p))).
Proof.
  unfold load_models_and_schemas, filled. intros ->.
  now destruct (get_categories_from_github BASE_URL network p).
Qed.

Lemma load_filled (p : Process Model) : filled p = true -> load p = (cached p, p).
Proof. unfold load_models_and_schemas, filled. now intros ->. Qed.

(** One category: three requests, whatever their outcome. *)
Lemma load_category_requested (p : Process Model) (category : string) :
  requested (load_one p category) = requested p ++ artifact_urls BASE_URL category.
Proof.
  unfold load_category, load_data, load_schema, load_model, requests_get.
  repeat match goal with
         | |- context [match ?m with Ok _ => _ | Raise _ => _ end] =>
             destruct m; cbn [requested store_model store_schema store_data]
         end;
    now rewrite <- !app_assoc.
Qed.

Lemma load_all_requested (cats : list string) (p : Process Model) :
  requested (foldl load_one p cats)
  = requested p ++ concat (map (artifact_urls BASE_URL) cats).
Proof.
  revert p; induction cats as [|c cats IH]; intros p; simpl.
  - now rewrite app_nil_r.
  - now rewrite IH, load_category_requested, <- app_assoc.
Qed.

(** X5. A load that does not return early requests, after discovery,
    exactly the model, the schema and the data of each discovered
    category, in this order: a failed download neither stops the
    remaining downloads of its category nor those of later
    categories. *)
Theorem load_requests_every_artifact (p : Process Model) :
  filled p = false ->
  requested (snd (load p))
  = requested (snd (discover p))
    ++ concat (map (artifact_urls BASE_URL) (fst (discover p))).
Proof. intros Hf. rewrite (load_unfilled p Hf). apply load_all_requested. Qed.

Lemma extends_refl (cats : list string) (p : Process Model) : extends cats p p.
Proof. split; [reflexivity|]. intros k. repeat split; auto. Qed.

Lemma extends_trans (cats1 cats2 : list string) (p1 p2 p3 : Process Model) :
  extends cats1 p1 p2 -> extends cats2 p2 p3 -> extends (cats1 ++ cats2) p1 p3.
Proof.
  intros [Hc1 H1] [Hc2 H2]. split; [congruence|]. intros k.
  destruct (H1 k) as ((A1 & B1) & (A2 & B2) & (A3 & B3)).
  destruct (H2 k) as ((C1 & D1) & (C2 & D2) & (C3 & D3)).
  repeat split; auto; intros Hk; rewrite elem_of_app.
  - destruct (D1 Hk) as [Hk'|]; [destruct (B1 Hk')|]; auto.
  - destruct (D2 Hk) as [Hk'|]; [destruct (B2 Hk')|]; auto.
  - destruct (D3 Hk) as [Hk'|]; [destruct (B3 Hk')|]; auto.
Qed.

Lemma is_Some_insert_iff {V} (m : gmap string V) (c k : string) (v : V) :
  is_Some (<[c := v]> m !! k) <-> k = c \/ is_Some (m !! k).
Proof.
  destruct (decide (c = k)) as [->|Hne].
  - rewrite lookup_insert_eq. split; eauto.
  - rewrite lookup_insert_ne by exact Hne. split; [auto|]. intros [->|]; [congruence|auto].
Qed.

Lemma load_category_extends (p : Process Model) (category : string) :
  extends [category] p (load_one p category).
Proof.
  unfold load_category, load_data, load_schema, load_model, requests_get.
  repeat match goal with
         | |- context [match ?m with Ok _ => _ | Raise _ => _ end] => destruct m
         end;
    (split; [reflexivity|]; intros k;
     cbn [_cached_models _cached_schemas _cached_data store_model store_schema store_data];
     rewrite ?is_Some_insert_iff, list_elem_of_singleton; tauto).
Qed.

Lemma load_all_extends (cats : list string) (p : Process Model) :
  extends cats p (foldl load_one p cats).
Proof.
  revert p; induction cats as [|c cats IH]; intros p; simpl.
  - apply extends_refl.
  - apply (extends_trans [c] cats _ (load_one p c));
      [apply load_category_extends | apply IH].
Qed.

Lemma discover_caches (p : Process Model) : cached (snd (discover p)) = cached p.
Proof.
  unfold get_categories_from_github.
  destruct (_cached_categories p) as [[|c cs]|]; reflexivity.
Qed.

Lemma load_extends (p : Process Model) :
  forall k,
    ((is_Some (_cached_models p !! k) -> is_Some (_cached_models (snd (load p)) !! k))
     /\ (is_Some (_cached_models (snd (load p)) !! k) ->
         is_Some (_cached_models p !! k) \/ k ∈ fst (discover p)))
    /\ ((is_Some (_cached_schemas p !! k) -> is_Some (_cached_schemas (snd (load p)) !! k))
        /\ (is_Some (_cached_schemas (snd (load p)) !! k) ->
            is_Some (_cached_schemas p !! k) \/ k ∈ fst (discover p)))
    /\ ((is_Some (_cached_data p !! k) -> is_Some (_cached_data (snd (load p)) !! k))
        /\ (is_Some (_cached_data (snd (load p)) !! k) ->
            is_Some (_cached_data p !! k) \/ k ∈ fst (discover p))).
Proof.
  intros k. destruct (filled p) eqn:Hf.
  - rewrite (load_filled p Hf). cbn [snd]. repeat split; auto.
  - rewrite (load_unfilled p Hf). cbn [snd].
    destruct (load_all_extends (fst (discover p)) (snd (discover p))) as [_ Hk].
    pose proof (discover_caches p) as Hc. unfold cached in Hc.
    injection Hc as Hm Hs Hd. rewrite <- Hm, <- Hs, <- Hd. apply Hk.
Qed.

(** X6. A load never drops a cached artifact: every category that had
    a model, a schema or a dataset before the call still has one after
    it, and the only categories that gain one are those that discovery
    names. *)
Theorem load_never_evicts (p : Process Model) (k : string) :
  (is_Some (_cached_models p !! k) -> is_Some (_cached_models (snd (load p)) !! k))
  /\ (is_Some (_cached_schemas p !! k) -> is_Some (_cached_schemas (snd (load p)) !! k))
  /\ (is_Some (_cached_data p !! k) -> is_Some (_cached_data (snd (load p)) !! k))
  /\ (is_Some (_cached_models (snd (load p)) !! k) ->
      is_Some (_cached_models p !! k) \/ k ∈ fst (discover p))
  /\ (is_Some (_cached_schemas (snd (load p)) !! k) ->
      is_Some (_cached_schemas p !! k) \/ k ∈ fst (discover p))
  /\ (is_Some (_cached_data (snd (load p)) !! k) ->
      is_Some (_cached_data p !! k) \/ k ∈ fst (discover p)).
Proof.
  destruct (load_extends p k) as ((A1 & B1) & (A2 & B2) & (A3 & B3)).
  repeat split; assumption.
Qed.


Lemma load_model_schemas (p : Process Model) (category : string) :
  _cached_schemas (load_model BASE_URL network category p) = _cached_schemas p.
Proof.
  unfold load_model, requests_get.
  now destruct (m <- network _ _;; _ <- raise_for_status m;; joblib_load (content m)).
Qed.

Lemma load_data_schemas (p : Process Model) (category : string) :
  _cached_schemas (load_data BASE_URL network category p) = _cached_schemas p.
Proof.
  unfold load_data, requests_get.
  now destruct (d <- network _ _;; _ <- raise_for_status d;; read_csv (content d)).
Qed.

Lemma load_schema_unlabelled (p : Process Model) (category : string) :
  never_json network ->
  _cached_schemas (load_schema BASE_URL network category p) = _cached_schemas p.
Proof.
  intros Hnj. unfold load_schema, requests_get.
  destruct (network (length (requested p)) _) as [resp|] eqn:N; cbn [bind];
    [|reflexivity].
  destruct (raise_for_status resp); cbn [bind]; [|reflexivity].
  now rewrite (Hnj _ _ _ N).
Qed.

Lemma load_category_schemas_kept (p : Process Model) (category : string) :
  never_json network ->
  _cached_schemas (load_one p category) = _cached_schemas p.
Proof.
  intros Hnj. unfold load_category.
  now rewrite load_data_schemas, (load_schema_unlabelled _ _ Hnj), load_model_schemas.
Qed.

Lemma load_all_schemas_kept (cats : list string) (p : Process Model) :
  never_json network ->
  _cached_schemas (foldl load_one p cats) = _cached_schemas p.
Proof.
  intros Hnj. revert p; induction cats as [|c cats IH]; intros p; simpl;
    [reflexivity|].
  now rewrite IH, load_category_schemas_kept.
Qed.

Lemma load_schemas_kept (p : Process Model) :
  never_json network ->
  _cached_schemas (snd (load p)) = _cached_schemas p.
Proof.
  intros Hnj. destruct (filled p) eqn:Hf.
  - now rewrite (load_filled p Hf).
  - rewrite (load_unfilled p Hf). cbn [snd].
    rewrite (load_all_schemas_kept _ _ Hnj).
    pose proof (discover_caches p) as Hc. unfold cached in Hc. now injection Hc.
Qed.

Lemma nonempty_empty {V} : nonempty (∅ : gmap string V) = false.
Proof. unfold nonempty. now rewrite bool_decide_eq_true_2. Qed.

(** X7. A host that never labels an answer as JSON (a raw file host
    serves schema files as text/plain) leaves the schema cache as it
    was, whatever the bodies hold.  Starting with no schema, the loader
    therefore never reaches its early return, and the backend's
    [predict] answers 404 for every category. *)
Theorem no_json_label_no_schema (p : Process Model) :
  never_json network ->
  _cached_schemas (snd (load p)) = _cached_schemas p
  /\ (_cached_schemas p = ∅ ->
      filled (snd (load p)) = false
      /\ forall `{FloatText} `{Predictor Model} market_data category body,
           BackendApp.predict (_cached_models (snd (load p)))
             (_cached_schemas (snd (load p))) market_data category body
           = NotFound "Category not found").
Proof.
  intros Hnj. pose proof (load_schemas_kept p Hnj) as Hs. split; [exact Hs|].
  intros He. rewrite He in Hs. split.
  - unfold filled. rewrite Hs, nonempty_empty. now rewrite andb_false_r.
  - intros. apply backend_predict_not_found. right. rewrite Hs. apply lookup_empty.
Qed.

Lemma load_model_served (p : Process Model) (category : string) :
  serves_everything BASE_URL network ->
  exists m q, load_model BASE_URL network category p = store_model category m q.
Proof.
  intros Hsrv. unfold load_model, requests_get.
  destruct (Hsrv (length (requested p)) category)
    as ((resp & m & Hn & Hst & Hm) & _).
  rewrite Hn. cbn [bind]. rewrite Hst. cbn [bind]. rewrite Hm. eauto.
Qed.

Lemma load_schema_served (p : Process Model) (category : string) :
  serves_everything BASE_URL network ->
  exists s q,
    load_schema BASE_URL network category p = store_schema category s q
    /\ _cached_models q = _cached_models p.
Proof.
  intros Hsrv. unfold load_schema, requests_get.
  destruct (Hsrv (length (requested p)) category)
    as (_ & (resp & s & Hn & Hst & Hct & Hs) & _).
  rewrite Hn. cbn [bind]. rewrite Hst. cbn [bind]. rewrite Hct. cbn [negb].
  rewrite Hs. eauto.
Qed.

Lemma load_data_served (p : Process Model) (category : string) :
  serves_everything BASE_URL network ->
  exists d q,
    load_data BASE_URL network category p = store_data category d q
    /\ _cached_models q = _cached_models p
    /\ _cached_schemas q = _cached_schemas p.
Proof.
  intros Hsrv. unfold load_data, requests_get.
  destruct (Hsrv (length (requested p)) category)
    as (_ & _ & (resp & d & Hn & Hst & Hd)).
  rewrite Hn. cbn [bind]. rewrite Hst. cbn [bind]. rewrite Hd. eauto.
Qed.

(** On a host that serves everything, one category ends in all three
    caches. *)
Lemma load_category_stores (p : Process Model) (category : string) :
  serves_everything BASE_URL network ->
  is_Some (_cached_models (load_one p category) !! category)
  /\ is_Some (_cached_schemas (load_one p category) !! category)
  /\ is_Some (_cached_data (load_one p category) !! category).
Proof.
  intros Hsrv. unfold load_category.
  destruct (load_model_served p category Hsrv) as (m & q1 & ->).
  destruct (load_schema_served (store_model category m q1) category Hsrv)
    as (s & q2 & -> & Hm2).
  destruct (load_data_served (store_schema category s q2) category Hsrv)
    as (d & q3 & -> & Hm3 & Hs3).
  cbn [store_data _cached_models _cached_schemas _cached_data].
  rewrite Hm3, Hs3. cbn [store_schema _cached_models _cached_schemas].
  rewrite Hm2. cbn [store_model _cached_models].
  rewrite !lookup_insert_eq. repeat split; eauto.
Qed.

Lemma load_all_stores (cats : list string) (p : Process Model) :
  serves_everything BASE_URL network ->
  forall c, c ∈ cats ->
    is_Some (_cached_models (foldl load_one p cats) !! c)
    /\ is_Some (_cached_schemas (foldl load_one p cats) !! c)
    /\ is_Some (_cached_data (foldl load_one p cats) !! c).
Proof.
  intros Hsrv. revert p; induction cats as [|c0 cats IH]; intros p c Hc.
  - now apply elem_of_nil in Hc.
  - simpl. destruct (decide (c ∈ cats)) as [Hin|Hout]; [now apply IH|].
    apply elem_of_cons in Hc as [->|Hc]; [|contradiction].
    destruct (load_category_stores p c0 Hsrv) as (Hm & Hs & Hd).
    destruct (load_all_extends cats (load_one p c0)) as [_ Hk].
    destruct (Hk c0) as ((A1 & _) & (A2 & _) & (A3 & _)). auto.
Qed.

Lemma nonempty_is_Some {V} (m : gmap string V) (k : string) :
  is_Some (m !! k) -> nonempty m = true.
Proof.
  intros [v Hv]. unfold nonempty. rewrite bool_decide_eq_false_2; [reflexivity|].
  intros ->. now rewrite lookup_empty in Hv.
Qed.

(** X8. On a host that serves every artifact (each of the three
    addresses of a category answered with a success status and a body
    that the decoder of that address accepts, the schema labelled as
    JSON), one load stores a model, a schema and a dataset for every
    discovered category; the caches are then full, and the next load
    returns them without a request. *)
Theorem load_fills_on_serving_host (p : Process Model) :
  serves_everything BASE_URL network ->
  filled p = false ->
  (forall c, c ∈ fst (discover p) ->
     is_Some (_cached_models (snd (load p)) !! c)
     /\ is_Some (_cached_schemas (snd (load p)) !! c)
     /\ is_Some (_cached_data (snd (load p)) !! c))
  /\ filled (snd (load p)) = true
  /\ load (snd (load p)) = load p.
Proof.
  intros Hsrv Hf.
  assert (Hall : forall c, c ∈ fst (discover p) ->
     is_Some (_cached_models (snd (load p)) !! c)
     /\ is_Some (_cached_schemas (snd (load p)) !! c)
     /\ is_Some (_cached_data (snd (load p)) !! c)).
  { rewrite (load_unfilled p Hf). cbn [snd]. now apply load_all_stores. }
  assert (Hfilled : filled (snd (load p)) = true).
  { destruct (fst (discover p)) as [|c cs] eqn:E.
    - exfalso. revert E. apply discovery_nonempty.
    - destruct (Hall c) as (Hm & Hs & Hd); [rewrite elem_of_cons; auto|].
      unfold filled.
      now rewrite (nonempty_is_Some _ _ Hm), (nonempty_is_Some _ _ Hs),
                  (nonempty_is_Some _ _ Hd). }
  split; [exact Hall|]. split; [exact Hfilled|].
  rewrite (load_filled _ Hfilled). rewrite (load_unfilled p Hf). reflexivity.
Qed.

End LoaderRuns.

(** *** Feature vectors *)

Lemma index_lt (xs : list string) (v : string) (i : nat) :
  index xs v = Some i -> (i < length xs)%nat.
Proof.
  intros Hi. destruct (index_first xs v i Hi) as [Hl _].
  exact (lookup_lt_Some _ _ _ Hl).
Qed.

Section FeatureVectors.
Context `{FloatText}.

Lemma prepare_loop_ext (data data' : gmap string pyval) (schema : Schema)
    (cols : list string) (feats : list number) :
  (forall col, col ∈ cols ->
     feature_of data schema col = feature_of data' schema col) ->
  prepare_loop data schema cols feats = prepare_loop data' schema cols feats.
Proof.
  revert feats; induction cols as [|col cols IH]; intros feats Heq; [reflexivity|].
  simpl. rewrite (Heq col) by (rewrite elem_of_cons; auto).
  destruct (feature_of data' schema col); simpl; [|reflexivity].
  apply IH. intros c Hc. apply Heq. rewrite elem_of_cons; auto.
Qed.

Lemma prepare_loop_values (data : gmap string pyval) (schema : Schema)
    (cols : list string) (feats out : list number) :
  prepare_loop data schema cols feats = Ok out ->
  exists vec, out = feats ++ vec
    /\ Forall2 (fun col x => feature_of data schema col = Ok x) cols vec.
Proof.
  intros Hout.
  destruct (prepare_loop_ok data schema cols feats
              (prepare_loop_inv data schema cols feats out Hout))
    as (vec & Hvec & Hrel).
  exists vec. split; [congruence | exact Hrel].
Qed.

(** X9. The feature vector reads the raw mapping only under the names
    of the schema: two mappings that agree on every feature column and
    on every categorical column give the same result, be it a vector or
    an error; any other attribute of the request is ignored. *)
Theorem prepare_features_reads_schema_names (data data' : gmap string pyval)
    (schema : Schema) :
  (forall col, col ∈ feature_columns schema -> data !! col = data' !! col) ->
  (forall base, base ∈ categorical_columns schema -> data !! base = data' !! base) ->
  prepare_features data schema = prepare_features data' schema.
Proof.
  intros Hcols Hcats. unfold prepare_features. apply prepare_loop_ext.
  intros col Hcol. unfold feature_of.
  destruct (endswith col "_encoded").
  - destruct (contains (categorical_columns schema) (drop_last 8 col)) eqn:C;
      [|reflexivity].
    apply contains_elem_of in C. now rewrite (Hcats _ C).
  - now rewrite (Hcols _ Hcol).
Qed.

(** What a column contributes: a label position within the encoder's
    range at an encoded column, a float elsewhere. *)
Lemma feature_of_range (data : gmap string pyval) (schema : Schema)
    (col : string) (x : number) :
  feature_of data schema col = Ok x ->
  if endswith col "_encoded"
  then exists i : nat,
         x = Int (Z.of_nat i)
         /\ (i = 0%nat
             \/ (i < length (default [] (encoders schema !! drop_last 8 col)))%nat)
  else exists y, x = Float y.
Proof.
  unfold feature_of. destruct (endswith col "_encoded").
  - destruct (contains (categorical_columns schema) (drop_last 8 col)).
    + set (val := str _). set (classes := default [] _).
      destruct (contains classes val) eqn:V.
      * destruct (index_contains _ _ V) as [i Hi]. rewrite Hi. intros [= <-].
        exists i. split; [reflexivity|]. right. exact (index_lt _ _ _ Hi).
      * intros [= <-]. exists 0%nat. auto.
    + intros [= <-]. exists 0%nat. auto.
  - destruct (float _) as [y|]; simpl; [|discriminate]. intros [= <-]. eauto.
Qed.

(** X10. In a returned vector, the entry of an encoded column is an
    integer that is 0 or a position below the number of labels of its
    encoder, and the entry of any other column is a float. *)
Theorem prepare_features_entry_ranges (data : gmap string pyval) (schema : Schema)
    (vec : list number) :
  prepare_features data schema = Ok vec ->
  Forall2 (fun col x =>
             if endswith col "_encoded"
             then exists i : nat,
                    x = Int (Z.of_nat i)
                    /\ (i = 0%nat
                        \/ (i < length (default []
                                          (encoders schema !! drop_last 8 col)))%nat)
             else exists y, x = Float y)
          (feature_columns schema) vec.
Proof.
  unfold prepare_features. intros Hvec.
  destruct (prepare_loop_values _ _ _ _ _ Hvec) as (v & -> & Hrel). simpl.
  eapply Forall2_impl; [exact Hrel|]. intros col x. apply feature_of_range.
Qed.

(** X11. A label that the encoder does not know is encoded like the
    encoder's first label: replacing one by the other in the request
    leaves the result unchanged (the categorical column not being a
    feature column of its own). *)
Theorem unknown_label_encodes_as_first (data : gmap string pyval) (schema : Schema)
    (base unknown first : string) (others : list string) :
  encoders schema !! base = Some (first :: others) ->
  unknown ∉ first :: others ->
  base ∉ feature_columns schema ->
  prepare_features (<[base := VStr unknown]> data) schema
  = prepare_features (<[base := VStr first]> data) schema.
Proof.
  intros Henc Hunk Hplain. unfold prepare_features. apply prepare_loop_ext.
  intros col Hcol. unfold feature_of.
  destruct (endswith col "_encoded").
  - destruct (contains (categorical_columns schema) (drop_last 8 col)); [|reflexivity].
    destruct (decide (base = drop_last 8 col)) as [<-|Hne].
    + rewrite !lookup_insert_eq, Henc. cbn [default from_option id str].
      destruct (contains (first :: others) unknown) eqn:C.
      * apply contains_elem_of in C. contradiction.
      * cbn [contains existsb index]. rewrite String.eqb_refl. reflexivity.
    + now rewrite !lookup_insert_ne by exact Hne.
  - assert (Hne : base <> col) by (intros ->; contradiction).
    now rewrite !lookup_insert_ne by exact Hne.
Qed.

End FeatureVectors.

(** *** Market comparison *)

Lemma lower_ascii_idempotent (c : Ascii.ascii) : lower_ascii (lower_ascii c) = lower_ascii c.
Proof. destruct c as [[] [] [] [] [] [] [] []]; reflexivity. Qed.

Lemma lower_idempotent (s : string) : lower (lower s) = lower s.
Proof.
  induction s as [|c s IH]; simpl; [reflexivity|].
  now rewrite lower_ascii_idempotent, IH.
Qed.

Lemma filter_filter_andb {A} (f g : A -> bool) (l : list A) :
  List.filter g (List.filter f l) = List.filter (fun x => f x && g x) l.
Proof.
  induction l as [|x l IH]; simpl; [reflexivity|].
  destruct (f x); simpl; [destruct (g x)|]; now rewrite IH.
Qed.

Section MarketReading.
Context `{FloatText}.

Lemma match_filter_same (features features' : gmap string pyval) (name : string)
    (df : DataFrame) :
  same_text (features !! name) (features' !! name) ->
  match_filter features name df = match_filter features' name df.
Proof.
  unfold match_filter, same_text.
  destruct (features !! name) as [v|], (features' !! name) as [v'|]; try easy.
  now intros ->.
Qed.

Lemma band_filter_same (features features' : gmap string pyval) (name : string)
    (tol : pyfloat) (df : DataFrame) :
  same_number (features !! name) (features' !! name) ->
  band_filter features name tol df = band_filter features' name tol df.
Proof.
  unfold band_filter, same_number.
  destruct (features !! name) as [v|], (features' !! name) as [v'|]; try easy.
  now intros ->.
Qed.

Ltac read_key Ha key :=
  let Hk := fresh "Hk" in
  pose proof (Ha key) as Hk; unfold same_reading in Hk; apply Hk; set_solver.

Lemma narrow_agree (category : string) (features features' : gmap string pyval)
    (df : DataFrame) :
  agree category features features' ->
  narrow category features df = narrow category features' df.
Proof.
  intros Ha. unfold narrow. unfold agree, relevant in Ha.
  rewrite (match_filter_same features features' "brand") by read_key Ha "brand".
  destruct (match_filter features' "brand" df) as [d|]; cbn [bind]; [|reflexivity].
  destruct (String.eqb category "phones").
  - rewrite (band_filter_same features features' "storage") by read_key Ha "storage".
    destruct (band_filter features' "storage" (Fin 128) d); cbn [bind]; [|reflexivity].
    apply band_filter_same. read_key Ha "ram".
  - destruct (String.eqb category "laptops").
    + rewrite (band_filter_same features features' "ram") by read_key Ha "ram".
      destruct (band_filter features' "ram" (Fin 8) d); cbn [bind]; [|reflexivity].
      apply band_filter_same. read_key Ha "storage".
    + destruct (String.eqb category "furniture"); [|reflexivity].
      apply match_filter_same. read_key Ha "material".
Qed.


Lemma market_average_agree (category : string) (features features' : gmap string pyval)
    (market_data : gmap string DataFrame) :
  agree category features features' ->
  calculate_market_average category features market_data
  = calculate_market_average category features' market_data.
Proof.
  intros Ha. unfold calculate_market_average.
  destruct (market_data !! category) as [full|]; [|reflexivity].
  destruct (empty full); [reflexivity|]. f_equal.
  unfold market_average_body. rewrite (narrow_agree _ _ _ _ Ha).
  destruct (narrow category features' full) as [df|]; cbn [bind]; [|reflexivity].
  destruct (Nat.ltb (len df) 5); [|reflexivity].
  rewrite (band_filter_same features features' "rating"); [reflexivity|].
  unfold agree, relevant in Ha. read_key Ha "rating".
Qed.

Lemma same_text_refl (o : option pyval) : same_text o o.
Proof. now destruct o. Qed.

Lemma same_number_refl (o : option pyval) : same_number o o.
Proof. now destruct o. Qed.

(** X12. The market average reads the request only under brand and
    rating and, by category, storage and ram (phones, laptops) or
    material (furniture): two requests that agree on these attributes
    get the same result, whatever else they hold. *)
Theorem market_average_reads_relevant_attributes (category : string)
    (features features' : gmap string pyval) (market_data : gmap string DataFrame) :
  (forall key, key ∈ relevant category -> features !! key = features' !! key) ->
  calculate_market_average category features market_data
  = calculate_market_average category features' market_data.
Proof.
  intros Heq. apply market_average_agree. intros key Hk. rewrite (Heq key Hk).
  unfold same_reading. destruct (_ || _)%bool;
    [apply same_text_refl | apply same_number_refl].
Qed.


(** X13. Letter case does not matter: a brand or material
    may be sent in any letter case, and lower-casing it in the request
    leaves the market average unchanged. *)
Theorem market_average_ignores_letter_case (category : string) (name text : string)
    (features : gmap string pyval) (market_data : gmap string DataFrame) :
  name = "brand" \/ name = "material" ->
  calculate_market_average category (<[name := VStr text]> features) market_data
  = calculate_market_average category (<[name := VStr (lower text)]> features)
      market_data.
Proof.
  intros Hname. apply market_average_agree. intros key _.
  destruct (decide (name = key)) as [<-|Hne].
  - rewrite !lookup_insert_eq. unfold same_reading.
    destruct Hname as [-> | ->]; cbn; now rewrite lower_idempotent.
  - rewrite !lookup_insert_ne by exact Hne. unfold same_reading.
    destruct (_ || _)%bool; [apply same_text_refl | apply same_number_refl].
Qed.




(** X16. For phones (laptops) the narrowing is cumulative: with storage
    and ram supplied as numbers and held in numeric columns, the
    narrowed set consists of exactly the rows of the brand-filtered set
    that lie within 128 (256) of the storage and within 4 (8) of the
    ram. *)
Theorem narrowing_is_cumulative (features : gmap string pyval) (full branded : DataFrame)
    (vs vr : pyval) (storage ram : pyfloat) :
  features !! "storage" = Some vs -> float vs = Ok storage ->
  features !! "ram" = Some vr -> float vr = Ok ram ->
  dtype_of (columns full) "storage" = Some Numeric ->
  dtype_of (columns full) "ram" = Some Numeric ->
  match_filter features "brand" full = Ok branded ->
  narrow "phones" features full
  = Ok (restrict (fun r => within "storage" storage (Fin 128) r
                           && within "ram" ram (Fin 4) r) branded)
  /\ narrow "laptops" features full
     = Ok (restrict (fun r => within "ram" ram (Fin 8) r
                              && within "storage" storage (Fin 256) r) branded).
Proof.
  intros Hs Hfs Hr Hfr Hts Htr Hb.
  destruct (match_filter_subframe _ _ _ _ Hb) as [Hcols _].
  unfold narrow. rewrite Hb. cbn [bind String.eqb Ascii.eqb Bool.eqb].
  split.
  - rewrite (band_filter_numeric features "storage" vs storage (Fin 128) branded Hs Hfs)
      by (now rewrite Hcols).
    cbn [bind].
    rewrite (band_filter_numeric features "ram" vr ram (Fin 4) _ Hr Hfr)
      by (cbn [restrict columns]; now rewrite Hcols).
    unfold restrict. cbn [columns rows]. now rewrite filter_filter_andb.
  - rewrite (band_filter_numeric features "ram" vr ram (Fin 8) branded Hr Hfr)
      by (now rewrite Hcols).
    cbn [bind].
    rewrite (band_filter_numeric features "storage" vs storage (Fin 256) _ Hs Hfs)
      by (cbn [restrict columns]; now rewrite Hcols).
    unfold restrict. cbn [columns rows]. now rewrite filter_filter_andb.
Qed.

End MarketReading.

(** *** The predict handlers *)

Lemma confidence_of_agree `{FloatText} (n : number) :
  exists x, BackendApp.confidence_of (VNum n) = Ok x
            /\ App.confidence_of (VNum n) = Ok (VNum (Float x)).
Proof.
  destruct (float_of_number n) as [q| | |] eqn:Hn.
  - exists (Fin (clamp q)).
    now rewrite (backend_confidence_of_number n q Hn), (app_confidence_of_number n q Hn).
  - destruct n as [z|x]; [discriminate|]. simpl in Hn. subst x. eexists. split; reflexivity.
  - destruct n as [z|x]; [discriminate|]. simpl in Hn. subst x. eexists. split; reflexivity.
  - destruct n as [z|x]; [discriminate|]. simpl in Hn. subst x. eexists. split; reflexivity.
Qed.

Lemma backend_percentage_value (y avg : pyfloat) :
  BackendApp.percentage_entry y avg
  = Ok (round_nd (fmul (fdiv_nz (fabs (fsub y avg))
                                (if truthy avg then avg else Fin 1))
                       (Fin 100)) 2).
Proof. unfold BackendApp.percentage_entry, truediv. now rewrite or_one_nonzero. Qed.

Lemma app_percentage_value (y avg : pyfloat) :
  App.percentage_entry y avg
  = Ok (round_nd (fmul (fdiv_nz (fabs (fsub y avg))
                                (fmax avg (Fin (1 # 1000000))))
                       (Fin 100)) 1).
Proof. unfold App.percentage_entry, truediv. now rewrite fmax_eps_nonzero. Qed.

Lemma is_Some_true {A} (o : option A) (a : A) :
  o = Some a -> bool_decide (is_Some o) = true.
Proof. intros ->. apply bool_decide_eq_true_2. eauto. Qed.

Section Handlers.
Context `{FloatText} {Model : Type} `{Predictor Model}.
Variable models : gmap string Model.
Variable schemas : gmap string Schema.
Variable market_data : gmap string DataFrame.
Variable category : string.
Variable model : Model.
Variable schema : Schema.
Hypothesis has_model : models !! category = Some model.
Hypothesis has_schema : schemas !! category = Some schema.

Local Notation "'estimate_here'" := (estimate market_data category model schema).

Lemma backend_predict_steps (body : Body) :
  BackendApp.predict models schemas market_data category body
  = match (got <- body;;
           est <- estimate_here (default ∅ got);;
           cf <- BackendApp.confidence_of (r2_score_of schema);;
           Ok (est, cf)) with
    | Raise e => ServerError e
    | Ok (y, avg, cf) =>
        Json {| BackendApp.category_of := category;
                BackendApp.predicted_price := round_nd y 2;
                BackendApp.market_average := round_nd avg 2;
                BackendApp.confidence := round_nd cf 2;
                BackendApp.comparison :=
                  {| vs_market := if fgt y avg then "above" else "below";
                     difference := round_nd (fabs (fsub y avg)) 2;
                     percentage :=
                       round_nd (fmul (fdiv_nz (fabs (fsub y avg))
                                               (if truthy avg then avg else Fin 1))
                                      (Fin 100)) 2 |} |}
    end.
Proof.
  unfold BackendApp.predict, BackendApp.predict_body, estimate, r2_score_of.
  rewrite (is_Some_true _ _ has_model), (is_Some_true _ _ has_schema). cbn [negb orb].
  unfold dict_getitem. rewrite has_model, has_schema.
  destruct body as [got|e]; cbn [bind]; [|reflexivity].
  destruct (prepare_features (default ∅ got) schema) as [feats|]; cbn [bind]; [|reflexivity].
  destruct (predict_first model feats) as [y|]; cbn [bind]; [|reflexivity].
  destruct (calculate_market_average category (default ∅ got) market_data) as [avg|];
    cbn [bind]; [|reflexivity].
  destruct (BackendApp.confidence_of _) as [cf|]; cbn [bind]; [|reflexivity].
  rewrite backend_percentage_value. reflexivity.
Qed.

Lemma app_predict_steps (body : Body) (n : number) :
  r2_score_of schema = VNum n ->
  App.predict models schemas market_data category body
  = match (got <- body;;
           est <- estimate_here (default ∅ got);;
           cf <- BackendApp.confidence_of (r2_score_of schema);;
           Ok (got, est, cf)) with
    | Raise e => ServerError e
    | Ok (got, (y, avg), cf) =>
        Json {| App.category_of := category;
                App.predicted_price := round_nd y 2;
                App.market_average := round_nd avg 2;
                App.confidence := VNum (Float (round_nd cf 2));
                App.comparison :=
                  {| vs_market := if fgt y avg then "above" else "below";
                     difference := round_nd (fabs (fsub y avg)) 2;
                     percentage :=
                       round_nd (fmul (fdiv_nz (fabs (fsub y avg))
                                               (fmax avg (Fin (1 # 1000000))))
                                      (Fin 100)) 1 |};
                App.features_used := default ∅ got |}
    end.
Proof.
  intros Hr2. unfold App.predict, App.predict_body, estimate.
  rewrite (is_Some_true _ _ has_model). cbn [negb].
  unfold dict_getitem. rewrite has_model, has_schema. cbn [default from_option id].
  destruct body as [got|e]; cbn [bind]; [|reflexivity].
  destruct (prepare_features _ schema) as [feats|]; cbn [bind]; [|reflexivity].
  destruct (predict_first model feats) as [y|]; cbn [bind]; [|reflexivity].
  destruct (calculate_market_average category _ market_data) as [avg|];
    cbn [bind]; [|reflexivity].
  fold (r2_score_of schema). rewrite Hr2.
  destruct (confidence_of_agree n) as (x & -> & ->). cbn [bind round].
  rewrite app_percentage_value. reflexivity.
Qed.

(** X17. A request whose value for a plain numeric feature column
    cannot be coerced to a float is answered with 500 by both handlers
    (the category being known): the error of the feature builder is not
    defaulted away further up. *)
Theorem malformed_value_is_server_error (data : gmap string pyval)
    (col : string) (v : pyval) (e : exn) (n : number) :
  col ∈ feature_columns schema ->
  endswith col "_encoded" = false ->
  data !! col = Some v ->
  float v = Raise e ->
  r2_score_of schema = VNum n ->
  (exists e', BackendApp.predict models schemas market_data category (Ok (Some data))
              = ServerError e')
  /\ (exists e', App.predict models schemas market_data category (Ok (Some data))
                 = ServerError e').
Proof.
  intros Hcol Hplain Hv He Hr2.
  assert (Hraise : exists e', prepare_features data schema = Raise e').
  { destruct (prepare_features data schema) as [vec|e'] eqn:P; [|eauto].
    exfalso. destruct (prepare_loop_inv data schema _ _ _ P col Hcol) as [x Hx].
    destruct (feature_of_coercible data schema col x v Hx
                (proj1 (endswith_false _ _) Hplain) Hv) as [y Hy].
    congruence. }
  destruct Hraise as [e' He'].
  rewrite backend_predict_steps, (app_predict_steps _ n Hr2).
  unfold estimate. cbn [bind default from_option id]. rewrite He'. cbn [bind]. eauto.
Qed.


(** X19. Equal prices count as "below": when the predicted price and
    the market average are the same finite number, both handlers report
    the side "below" with difference 0 and percentage 0; the side is
    "above" only for a predicted price strictly greater than the market
    average. *)
Theorem equal_prices_are_below (data : gmap string pyval) (feats : list number)
    (y avg : pyfloat) (n : number) :
  prepare_features data schema = Ok feats ->
  predict_first model feats = Ok y ->
  calculate_market_average category data market_data = Ok avg ->
  r2_score_of schema = VNum n ->
  exists out resp,
    BackendApp.predict models schemas market_data category (Ok (Some data)) = Json out
    /\ App.predict models schemas market_data category (Ok (Some data)) = Json resp
    /\ vs_market (BackendApp.comparison out) = (if flt avg y then "above" else "below")
    /\ vs_market (App.comparison resp) = (if flt avg y then "above" else "below")
    /\ (forall q, y = Fin q -> avg = Fin q ->
          vs_market (BackendApp.comparison out) = "below"
          /\ difference (BackendApp.comparison out) = Fin 0
          /\ percentage (BackendApp.comparison out) = Fin 0
          /\ vs_market (App.comparison resp) = "below"
          /\ difference (App.comparison resp) = Fin 0
          /\ percentage (App.comparison resp) = Fin 0).
Proof.
  intros Hp Hy Havg Hr2.
  rewrite backend_predict_steps, (app_predict_steps _ n Hr2).
  unfold estimate. cbn [bind default from_option id]. rewrite Hp. cbn [bind].
  rewrite Hy. cbn [bind]. rewrite Havg. cbn [bind]. rewrite Hr2.
  destruct (confidence_of_agree n) as (cf & -> & _). cbn [bind].
  eexists. eexists. split; [reflexivity|]. split; [reflexivity|]. cbn.
  split; [reflexivity|]. split; [reflexivity|].
  intros q -> ->.
  assert (Hsame : flt (Fin q) (Fin q) = false).
  { destruct (flt (Fin q) (Fin q)) eqn:E; [|reflexivity].
    apply flt_fin in E. exfalso. exact (Qlt_irrefl _ E). }
  assert (Hzero : fabs (fsub (Fin q) (Fin q)) = Fin 0).
  { cbn [fsub fabs]. assert (Hq : Qred (q - q) = 0%Q).
    { change 0%Q with (Qred 0). apply Qred_complete. ring. }
    now rewrite Hq. }
  assert (Hdiv : forall d, fdiv_nz (Fin 0) (Fin d) = Fin 0).
  { intros d. cbn [fdiv_nz]. reflexivity. }
  unfold fgt. rewrite Hsame, Hzero.
  assert (Hb : (if truthy (Fin q) then Fin q else Fin 1) = Fin q \/
               (if truthy (Fin q) then Fin q else Fin 1) = Fin 1)
    by (destruct (truthy (Fin q)); auto).
  assert (Ha : fmax (Fin q) (Fin (1 # 1000000)) = Fin q \/
               fmax (Fin q) (Fin (1 # 1000000)) = Fin (1 # 1000000))
    by (unfold fmax; destruct (fgt _ _); auto).
  repeat split; try reflexivity.
  - destruct Hb as [-> | ->]; rewrite Hdiv; reflexivity.
  - destruct Ha as [-> | ->]; rewrite Hdiv; reflexivity.
Qed.

(** X20. A category with a model and a schema but no dataset is still
    answered: the result carries 500.0 as its market average, and the
    prediction is compared against it. *)
Theorem no_dataset_compares_with_500 (body : Body) (out : BackendApp.Out) :
  market_data !! category = None ->
  BackendApp.predict models schemas market_data category body = Json out ->
  BackendApp.market_average out = Fin 500
  /\ exists y, BackendApp.predicted_price out = round_nd y 2
               /\ vs_market (BackendApp.comparison out)
                  = (if flt (Fin 500) y then "above" else "below")
               /\ difference (BackendApp.comparison out)
                  = round_nd (fabs (fsub y (Fin 500))) 2.
Proof.
  intros Hnone. rewrite backend_predict_steps.
  destruct body as [got|]; cbn [bind]; [|discriminate].
  unfold estimate.
  destruct (prepare_features (default ∅ got) schema) as [feats|]; cbn [bind];
    [|discriminate].
  destruct (predict_first model feats) as [y|]; cbn [bind]; [|discriminate].
  unfold calculate_market_average. rewrite Hnone. cbn [bind].
  destruct (BackendApp.confidence_of (r2_score_of schema)) as [cf|]; cbn [bind];
    [|discriminate].
  intros [= <-]. cbn. split; [reflexivity|]. exists y. repeat split.
Qed.

End Handlers.

(** *** The statistics routes *)

Section StatisticsRoutes.
Context `{SeriesStats}.
Variable market_data : gmap string DataFrame.

(** X21. [app.py] answers 404 to a statistics request exactly when the
    category has no dataset or an empty one; the backend answers 404
    exactly when the category has no dataset, and goes on to compute
    on an empty one. *)
Theorem market_stats_not_found (category : string) :
  ((exists msg, App.market_stats market_data category = NotFound msg)
   <-> (market_data !! category = None
        \/ exists df, market_data !! category = Some df /\ empty df = true))
  /\ ((exists msg, BackendApp.market_stats market_data category = NotFound msg)
      <-> market_data !! category = None).
Proof.
  unfold App.market_stats, BackendApp.market_stats. split.
  - destruct (market_data !! category) as [df|] eqn:D.
    + destruct (empty df) eqn:E.
      * split; [intros _; right; eauto | eauto].
      * split.
        -- intros [msg Hm]. destruct (App.market_stats_body _ _); discriminate.
        -- intros [Hn | (df' & [= <-] & He)]; congruence.
    + split; eauto.
  - destruct (market_data !! category) as [df|] eqn:D.
    + rewrite bool_decide_eq_true_2 by eauto. cbn [negb]. split.
      * intros [msg Hm]. destruct (BackendApp.market_stats_body _ _); discriminate.
      * discriminate.
    + rewrite bool_decide_eq_false_2 by (intros [? ?]; discriminate). cbn [negb].
      split; eauto.
Qed.

(** X22. For a non-empty dataset that has a price column but no rating
    column, the price reductions succeeding, the backend answers 500
    (the rating column is read unguarded), while [app.py] answers 200
    with every rating statistic absent. *)
Theorem market_stats_without_rating (category : string) (df : DataFrame)
    (col : Series) (lo hi mid med dev : pyfloat) :
  market_data !! category = Some df ->
  empty df = false ->
  getitem df "price" = Ok col ->
  has_column df "rating" = false ->
  series_min col = Ok lo -> series_max col = Ok hi -> mean col = Ok mid ->
  series_median col = Ok med -> series_std col = Ok dev ->
  BackendApp.market_stats market_data category = ServerError KeyError
  /\ exists stats,
       App.market_stats market_data category = Json stats
       /\ App.rating_stats stats
          = {| App.rating_min := None; App.rating_max := None;
               App.rating_mean := None |}
       /\ App.total_products stats = len df
       /\ App.price_stats stats
          = {| App.price_min := lo; App.price_max := hi; App.price_mean := mid;
               App.price_median := med; App.price_std := dev |}.
Proof.
  intros Hd He Hp Hr Hlo Hhi Hmid Hmed Hdev. split.
  - unfold BackendApp.market_stats, BackendApp.market_stats_body, dict_getitem.
    rewrite Hd. rewrite bool_decide_eq_true_2 by eauto. cbn [negb bind].
    rewrite Hp. cbn [bind]. rewrite Hlo, Hhi, Hmid, Hmed, Hdev. cbn [bind].
    unfold has_column in Hr. unfold getitem.
    destruct (dtype_of (columns df) "rating"); [discriminate|]. reflexivity.
  - unfold App.market_stats, App.market_stats_body, App.rating_entry.
    rewrite Hd, He, Hp, Hr. cbn [bind]. rewrite Hlo, Hhi, Hmid, Hmed, Hdev. cbn [bind].
    unfold has_column, getitem.
    destruct (dtype_of (columns df) "brand") as [[|]|];
      cbn [bind]; eexists; (split; [reflexivity|]); repeat split.
Qed.

End StatisticsRoutes.

(** *** Concrete runs of the further properties *)

Lemma discovery_falls_back_witness :
  fst (get_categories_from_github base_url unreachable (fresh Linear))
  = default_categories.
Proof.
  destruct (discovery_falls_back base_url unreachable (fresh Linear)
              (or_introl eq_refl)) as [Hraise _].
  apply (Hraise ConnectionError). reflexivity.
Defined.

Lemma discovery_lists_models_witness :
  fst (@get_categories_from_github Linear listing_decoders base_url serving
         (fresh Linear))
  = ["phones"; "tablets"].
Proof.
  apply (@discovery_lists_models Linear listing_decoders base_url serving
           (fresh Linear) served model_listing).
  - left. reflexivity.
  - reflexivity.
  - reflexivity.
  - reflexivity.
  - repeat constructor; eexists; (split; [reflexivity | vm_compute; reflexivity]).
  - repeat constructor.
  - discriminate.
Defined.

Lemma load_requests_every_artifact_witness :
  requested unreachable_once
  = requested (snd (get_categories_from_github base_url unreachable (fresh Linear)))
    ++ concat (map (artifact_urls base_url)
                 (fst (get_categories_from_github base_url unreachable (fresh Linear)))).
Proof.
  apply (load_requests_every_artifact base_url unreachable (fresh Linear)).
  reflexivity.
Defined.

Lemma no_json_label_no_schema_witness :
  _cached_schemas (snd (load_models_and_schemas base_url plain_text_host (fresh Linear)))
  = ∅.
Proof.
  destruct (no_json_label_no_schema base_url plain_text_host (fresh Linear))
    as [Hkept _].
  - intros n url resp Hresp. injection Hresp as <-. reflexivity.
  - exact Hkept.
Defined.

(** The last character of an address is that of its last non-empty
    part. *)
Lemma last_char_app (a b : string) :
  last_char (a +:+ b)
  = match last_char b with
    | None => last_char a
    | Some d => Some d
    end.
Proof.
  induction a as [|c a IH].
  - change (EmptyString +:+ b) with b. simpl. now destruct (last_char b).
  - change (String c a +:+ b) with (String c (a +:+ b)). simpl.
    rewrite IH. now destruct (last_char b), (last_char a).
Qed.

(** Each body of the file host is accepted by the decoder of its own
    kind and refused by the other two. *)
Example strict_decoders_tell_bodies_apart :
  @joblib_load _ strict_decoders pickle_body = Ok [1%Q]
  /\ @json_schema _ strict_decoders pickle_body = Raise ValueError
  /\ @read_csv _ strict_decoders pickle_body = Raise ValueError
  /\ @joblib_load _ strict_decoders schema_body = Raise ValueError
  /\ @json_schema _ strict_decoders schema_body = Ok empty_schema
  /\ @read_csv _ strict_decoders schema_body = Raise ValueError
  /\ @joblib_load _ strict_decoders csv_body = Raise ValueError
  /\ @json_schema _ strict_decoders csv_body = Raise ValueError
  /\ @read_csv _ strict_decoders csv_body = Ok eights.
Proof. repeat split; reflexivity. Qed.

(** X8, on a file host whose bodies are each accepted by one decoder
    only: after one load from a fresh process the three caches are
    full; the furniture entry of each is the decoded artifact. *)
Lemma load_fills_on_serving_host_witness :
  filled (snd (@load_models_and_schemas Linear strict_decoders base_url file_host
                 (fresh Linear))) = true
  /\ cached (snd (@load_models_and_schemas Linear strict_decoders base_url file_host
                    (fresh Linear)))
     = ({[ "phones" := [1%Q]; "laptops" := [1%Q]; "furniture" := [1%Q] ]},
        {[ "phones" := empty_schema; "laptops" := empty_schema;
           "furniture" := empty_schema ]},
        {[ "phones" := eights; "laptops" := eights; "furniture" := eights ]}).
Proof.
  split.
  - apply (@load_fills_on_serving_host Linear strict_decoders base_url file_host
             (fresh Linear)).
    + intros n category. unfold file_host. split; [|split].
      * eexists _, _. rewrite !last_char_app. cbn. split; [reflexivity|].
        split; reflexivity.
      * eexists _, _. rewrite !last_char_app. cbn. split; [reflexivity|].
        split; [reflexivity|]. split; reflexivity.
      * eexists _, _. rewrite !last_char_app. cbn. split; [reflexivity|].
        split; reflexivity.
    + reflexivity.
  - vm_compute. reflexivity.
Defined.

Lemma prepare_features_reads_schema_names_witness :
  prepare_features phone_request phone_schema
  = prepare_features (<["colour" := VStr "red"]> phone_request) phone_schema.
Proof.
  apply prepare_features_reads_schema_names.
  - intros col Hcol.
    repeat (apply elem_of_cons in Hcol as [-> | Hcol]; [reflexivity|]).
    now apply elem_of_nil in Hcol.
  - intros base Hbase.
    repeat (apply elem_of_cons in Hbase as [-> | Hbase]; [reflexivity|]).
    now apply elem_of_nil in Hbase.
Defined.

Lemma prepare_features_entry_ranges_witness :
  Forall2 (fun col x =>
             if endswith col "_encoded"
             then exists i : nat,
                    x = Int (Z.of_nat i)
                    /\ (i = 0%nat
                        \/ (i < length (default []
                                          (encoders phone_schema !! drop_last 8 col)))%nat)
             else exists y, x = Float y)
          (feature_columns phone_schema) [Float (Fin 6); Int 1].
Proof.
  apply (prepare_features_entry_ranges phone_request phone_schema).
  reflexivity.
Defined.

Lemma unknown_label_encodes_as_first_witness :
  prepare_features (<["storage" := VStr "512"]> phone_request) phone_schema
  = prepare_features (<["storage" := VStr "64"]> phone_request) phone_schema.
Proof.
  apply (unknown_label_encodes_as_first phone_request phone_schema
           "storage" "512" "64" ["128"; "256"]).
  - reflexivity.
  - intros Hin.
    repeat (apply elem_of_cons in Hin as [Hin | Hin]; [discriminate Hin|]).
    now apply elem_of_nil in Hin.
  - intros Hin.
    repeat (apply elem_of_cons in Hin as [Hin | Hin]; [discriminate Hin|]).
    now apply elem_of_nil in Hin.
Defined.

Lemma market_average_reads_relevant_attributes_witness :
  calculate_market_average "furniture" {[ "brand" := VStr "ikea" ]}
    {[ "furniture" := furniture ]}
  = calculate_market_average "furniture"
      {[ "brand" := VStr "ikea"; "colour" := VStr "red"; "storage" := VStr "big" ]}
      {[ "furniture" := furniture ]}.
Proof.
  apply market_average_reads_relevant_attributes.
  intros key Hkey.
  repeat (apply elem_of_cons in Hkey as [-> | Hkey]; [reflexivity|]).
  now apply elem_of_nil in Hkey.
Defined.

Lemma market_average_ignores_letter_case_witness :
  calculate_market_average "furniture" (<["brand" := VStr "IKEA"]> ∅)
    {[ "furniture" := showroom ]}
  = calculate_market_average "furniture" (<["brand" := VStr (lower "IKEA")]> ∅)
      {[ "furniture" := showroom ]}.
Proof.
  apply market_average_ignores_letter_case. left. reflexivity.
Defined.



Example showroom_mean :
  price_mean showroom = Ok (Fin 350)
  /\ calculate_market_average "furniture"
       {[ "brand" := VStr "ikea"; "rating" := VNum (Int 1) ]}
       {[ "furniture" := showroom ]} = Ok (Fin 350).
Proof. split; reflexivity. Qed.

Lemma narrowing_is_cumulative_witness :
  narrow "phones" {[ "storage" := VNum (Int 128); "ram" := VStr "8" ]} phone_table
  = Ok (restrict (fun r => within "storage" (Fin 128) (Fin 128) r
                           && within "ram" (Fin 8) (Fin 4) r) phone_table)
  /\ narrow "laptops" {[ "storage" := VNum (Int 128); "ram" := VStr "8" ]} phone_table
     = Ok (restrict (fun r => within "ram" (Fin 8) (Fin 8) r
                              && within "storage" (Fin 128) (Fin 256) r) phone_table).
Proof.
  apply (narrowing_is_cumulative
           {[ "storage" := VNum (Int 128); "ram" := VStr "8" ]}
           phone_table phone_table (VNum (Int 128)) (VStr "8")); reflexivity.
Defined.

Example phones_within_both_bands :
  len (restrict (fun r => within "storage" (Fin 128) (Fin 128) r
                          && within "ram" (Fin 8) (Fin 4) r) phone_table) = 3%nat.
Proof. reflexivity. Qed.

Lemma malformed_value_is_server_error_witness :
  (exists e', BackendApp.predict phone_models {[ "phones" := phone_schema ]} ∅ "phones"
                (Ok (Some {[ "ram" := VStr "abc" ]})) = ServerError e')
  /\ (exists e', App.predict phone_models {[ "phones" := phone_schema ]} ∅ "phones"
                   (Ok (Some {[ "ram" := VStr "abc" ]})) = ServerError e').
Proof.
  refine (malformed_value_is_server_error phone_models {[ "phones" := phone_schema ]} ∅
            "phones" [1%Q; 2%Q] phone_schema _ _
            {[ "ram" := VStr "abc" ]} "ram" (VStr "abc") ValueError
            (Float (Fin (4 # 5))) _ _ _ _ _).
  - reflexivity.
  - reflexivity.
  - apply elem_of_cons. left. reflexivity.
  - reflexivity.
  - reflexivity.
  - reflexivity.
  - reflexivity.
Defined.


Lemma equal_prices_are_below_witness :
  exists out resp,
    BackendApp.predict {[ "furniture" := [1%Q] ]} {[ "furniture" := ram_schema ]}
      {[ "furniture" := eights ]} "furniture" (Ok (Some ∅)) = Json out
    /\ App.predict {[ "furniture" := [1%Q] ]} {[ "furniture" := ram_schema ]}
         {[ "furniture" := eights ]} "furniture" (Ok (Some ∅)) = Json resp
    /\ vs_market (BackendApp.comparison out) = "below"
    /\ percentage (BackendApp.comparison out) = Fin 0
    /\ vs_market (App.comparison resp) = "below"
    /\ percentage (App.comparison resp) = Fin 0.
Proof.
  assert (Hm : ({[ "furniture" := [1%Q] ]} : gmap string Linear) !! "furniture"
               = Some [1%Q]) by reflexivity.
  assert (Hs : ({[ "furniture" := ram_schema ]} : gmap string Schema) !! "furniture"
               = Some ram_schema) by reflexivity.
  assert (Hp : prepare_features ∅ ram_schema = Ok [Float (Fin 8)]) by reflexivity.
  assert (Hy : predict_first [1%Q] [Float (Fin 8)] = Ok (Fin 8)) by reflexivity.
  assert (Ha : calculate_market_average "furniture" ∅ {[ "furniture" := eights ]}
               = Ok (Fin 8)) by reflexivity.
  assert (Hr : r2_score_of ram_schema = VNum (Int (-5))) by reflexivity.
  destruct (equal_prices_are_below _ _ _ _ _ _ Hm Hs _ _ _ _ _ Hp Hy Ha Hr)
    as (out & resp & Hout & Hresp & _ & _ & Htie).
  destruct (Htie 8%Q eq_refl eq_refl) as (B1 & _ & B3 & A1 & _ & A3).
  exists out, resp. repeat split; assumption.
Defined.

Lemma no_dataset_compares_with_500_witness :
  exists out,
    BackendApp.predict phone_models {[ "phones" := phone_schema ]} ∅ "phones"
      (Ok (Some phone_request)) = Json out
    /\ BackendApp.market_average out = Fin 500.
Proof.
  eexists. split; [vm_compute; reflexivity|].
  refine (proj1 (no_dataset_compares_with_500 phone_models
                   {[ "phones" := phone_schema ]} ∅
                   "phones" [1%Q; 2%Q] phone_schema _ _
                   (Ok (Some phone_request)) _ _ _)); reflexivity.
Defined.

Lemma market_stats_without_rating_witness :
  BackendApp.market_stats {[ "misc" := unrated ]} "misc" = ServerError KeyError
  /\ exists stats,
       App.market_stats {[ "misc" := unrated ]} "misc" = Json stats
       /\ App.rating_stats stats
          = {| App.rating_min := None; App.rating_max := None;
               App.rating_mean := None |}
       /\ App.total_products stats = len unrated
       /\ App.price_stats stats
          = {| App.price_min := Fin 10; App.price_max := Fin 30;
               App.price_mean := Fin 20;
               App.price_median := NaN; App.price_std := NaN |}.
Proof.
  apply (market_stats_without_rating {[ "misc" := unrated ]} "misc" unrated
           (NumS [Fin 10; Fin 30])); reflexivity.
Defined.
